(** * prometheus-remote-write: the conversion-and-delivery pipeline

    A shallow embedding of [remotewrite.go] (package [remotewrite]):
    [sendToRemoteWrite], [createSnappyWithMetricFamily] and [RemoteWrite].

    Go pointers are options ([None] is [nil]), slices are lists, [float64]
    is the kernel's binary64 float, [int], [int32] and [int64] values are
    integers of [Z] (the code performs one division on them and no other
    arithmetic).  The effects of the code (reading the clock, printing,
    logging, gathering, HTTP, [log.Fatalf] leaving the process, nil
    dereferences) are threaded through a small state-and-outcome monad over
    a [World]; the libraries the code calls into are an [Env] of oracles.

    The loop of [periodicBackgroundTask] of [example/main.go] is embedded
    in [sample_app]; the HTTP handlers and [main] of the sample application
    run concurrently and against real time and are left out. *)

From Stdlib Require Import ZArith String List Floats.PrimFloat.
From Stdlib Require Import Floats.FloatOps Floats.SpecFloat Uint63.
From stdpp Require Import base option list strings gmap.

Open Scope string_scope.
Open Scope Z_scope.
Open Scope list_scope.

(** ** The gathered snapshot: package [io_prometheus_client]

    The message types of [github.com/prometheus/client_model/go], with the
    fields [remotewrite.go] reads.  Optional scalar fields of the generated
    code are pointers, and the getters are nil-safe on the receiver and on
    the field. *)
Module io_prometheus_client.

(** [type MetricType int32] with its generated constants. *)
Definition MetricType := Z.
Definition MetricType_COUNTER : MetricType := 0.
Definition MetricType_GAUGE : MetricType := 1.
Definition MetricType_SUMMARY : MetricType := 2.
Definition MetricType_UNTYPED : MetricType := 3.
Definition MetricType_HISTOGRAM : MetricType := 4.
Definition MetricType_GAUGE_HISTOGRAM : MetricType := 5.

Record LabelPair := {
  LabelPair_Name : option string;
  LabelPair_Value : option string }.

Record Gauge := { Gauge_Value : option float }.
Record Counter := { Counter_Value : option float }.
Record Untyped := { Untyped_Value : option float }.
Record Summary := {
  Summary_SampleCount : option Z;
  Summary_SampleSum : option float }.
Record Histogram := {
  Histogram_SampleCount : option Z;
  Histogram_SampleSum : option float }.

Record Metric := {
  Metric_Label : list (option LabelPair);
  Metric_Gauge : option Gauge;
  Metric_Counter : option Counter;
  Metric_Summary : option Summary;
  Metric_Untyped : option Untyped;
  Metric_Histogram : option Histogram }.

Record MetricFamily := {
  MetricFamily_Name : option string;
  MetricFamily_Type : option MetricType;
  MetricFamily_Metric : list (option Metric) }.

(** [func (x *T) GetF() F]: the field when receiver and field are set,
    the zero value of [F] otherwise. *)
Definition LabelPair_GetName (x : option LabelPair) : string :=
  default "" (x ≫= LabelPair_Name).
Definition LabelPair_GetValue (x : option LabelPair) : string :=
  default "" (x ≫= LabelPair_Value).
Definition MetricFamily_GetName (x : option MetricFamily) : string :=
  default "" (x ≫= MetricFamily_Name).

Definition Metric_GetGauge (x : option Metric) : option Gauge :=
  x ≫= Metric_Gauge.
Definition Metric_GetCounter (x : option Metric) : option Counter :=
  x ≫= Metric_Counter.
Definition Metric_GetSummary (x : option Metric) : option Summary :=
  x ≫= Metric_Summary.
Definition Metric_GetUntyped (x : option Metric) : option Untyped :=
  x ≫= Metric_Untyped.
Definition Metric_GetHistogram (x : option Metric) : option Histogram :=
  x ≫= Metric_Histogram.

Definition Gauge_GetValue (x : option Gauge) : float :=
  default 0%float (x ≫= Gauge_Value).
Definition Counter_GetValue (x : option Counter) : float :=
  default 0%float (x ≫= Counter_Value).
Definition Untyped_GetValue (x : option Untyped) : float :=
  default 0%float (x ≫= Untyped_Value).
Definition Summary_GetSampleSum (x : option Summary) : float :=
  default 0%float (x ≫= Summary_SampleSum).
Definition Histogram_GetSampleSum (x : option Histogram) : float :=
  default 0%float (x ≫= Histogram_SampleSum).

End io_prometheus_client.

(** ** The remote-write envelope: package [prompb] *)
Module prompb.

Record Label := { Label_Name : string; Label_Value : string }.
Record Sample := { Sample_Value : float; Sample_Timestamp : Z }.
Record TimeSeries := {
  TimeSeries_Labels : list Label;
  TimeSeries_Samples : list Sample }.
Record WriteRequest := { WriteRequest_Timeseries : list TimeSeries }.

End prompb.

(** ** Errors: the [error] interface and [fmt.Errorf] with [%w] *)
Inductive error :=
| ErrorString (msg : string)
| Errorf (format : string) (wrapped : error).

(** ** Requests and responses: package [net/http] *)
Module http.

Definition StatusOK : Z := 200.

Record Request := {
  Request_Method : string;
  Request_URL : string;
  Request_Header : gmap string (list string);
  Request_Body : list Byte.byte }.

Record Response := {
  Response_Status : string;
  Response_StatusCode : Z }.

(** [req.Header.Set(key, value)]: the entry of [key] becomes the single
    value.  Both keys the code sets are already in canonical MIME form,
    so the canonicalisation of the key is the identity on them. *)
Definition Header_Set (req : Request) (key value : string) : Request :=
  {| Request_Method := Request_Method req;
     Request_URL := Request_URL req;
     Request_Header := <[key := [value]]> (Request_Header req);
     Request_Body := Request_Body req |}.

End http.

Import io_prometheus_client prompb http.

(** ** The world the code runs in *)

(** An argument of a [Printf]-style call, kept beside the format string
    of the source instead of being rendered. *)
Inductive Arg :=
| AInt (z : Z)
| AString (s : string)
| AError (e : error)
| AMetricType (t : MetricType).

(** What the process does that an observer can see, in order. *)
Inductive Event :=
| Stdout (format : string) (args : list Arg)
| Logged (format : string) (args : list Arg)
| HTTPDo (req : Request)
| BodyClose (resp : Response).

(** How a call ends: it returns, the process exits ([log.Fatalf] calls
    [os.Exit(1)]), or the goroutine panics. *)
Inductive Outcome (A : Type) :=
| Returned (a : A)
| Exited (code : Z)
| Panicked (reason : string).
Arguments Returned {A} a.
Arguments Exited {A} code.
Arguments Panicked {A} reason.

(** The libraries and the outside world, as oracles.  The [n]-th call of
    [time.Now], of [Gather] and of [client.Do] gets the [n]-th answer. *)
Record Env := {
  (** [time.Now().UnixNano()], an [int64]. *)
  env_UnixNano : nat -> Z;
  (** [prometheus.DefaultGatherer.Gather()]. *)
  env_Gather : nat -> error + list (option MetricFamily);
  (** [proto.Marshal]. *)
  env_Marshal : WriteRequest -> error + list Byte.byte;
  (** [snappy.Encode(nil, data)]. *)
  env_snappy_Encode : list Byte.byte -> list Byte.byte;
  (** What [http.NewRequest] reports for a URL it cannot parse. *)
  env_url_error : string -> option error;
  (** The round trip of [client.Do]. *)
  env_Do : nat -> Request -> error + Response }.

Record World := {
  clock_reads : nat;
  gathers : nat;
  http_calls : nat;
  trace : list Event }.

Definition emit (ev : Event) (w : World) : World :=
  {| clock_reads := clock_reads w;
     gathers := gathers w;
     http_calls := http_calls w;
     trace := trace w ++ [ev] |}.

Definition count_clock_read (w : World) : World :=
  {| clock_reads := S (clock_reads w);
     gathers := gathers w;
     http_calls := http_calls w;
     trace := trace w |}.

Definition count_gather (w : World) : World :=
  {| clock_reads := clock_reads w;
     gathers := S (gathers w);
     http_calls := http_calls w;
     trace := trace w |}.

Definition count_http_call (w : World) : World :=
  {| clock_reads := clock_reads w;
     gathers := gathers w;
     http_calls := S (http_calls w);
     trace := trace w |}.

Definition Go (A : Type) : Type := World -> World * Outcome A.

#[global] Instance Go_ret : MRet Go := fun A a w => (w, Returned a).
#[global] Instance Go_bind : MBind Go := fun A B k c w =>
  match c w with
  | (w', Returned a) => k a w'
  | (w', Exited code) => (w', Exited code)
  | (w', Panicked reason) => (w', Panicked reason)
  end.

Definition nil_dereference : string :=
  "runtime error: invalid memory address or nil pointer dereference".

Definition panic {A} (reason : string) : Go A :=
  fun w => (w, Panicked reason).

Definition fmt_Printf (format : string) (args : list Arg) : Go unit :=
  fun w => (emit (Stdout format args) w, Returned tt).

Definition log_Println (msg : string) : Go unit :=
  fun w => (emit (Logged msg []) w, Returned tt).

(** [log.Fatalf]: the message is logged, then the process exits with
    status 1; the call does not return. *)
Definition log_Fatalf {A} (format : string) (args : list Arg) : Go A :=
  fun w => (emit (Logged format args) w, Exited 1).

(** [for _, x := range xs { acc = body(x, acc) }], left to right, ended
    early by an exit or a panic of the body. *)
Fixpoint forRange {A S} (body : A -> S -> Go S) (xs : list A) (acc : S)
  : Go S :=
  match xs with
  | [] => mret acc
  | x :: rest => acc' ← body x acc; forRange body rest acc'
  end.

Section Pipeline.

Context (env : Env).

Definition time_Now_UnixNano : Go Z :=
  fun w => (count_clock_read w, Returned (env_UnixNano env (clock_reads w))).

Definition DefaultGatherer_Gather
  : Go (error + list (option MetricFamily)) :=
  fun w => (count_gather w, Returned (env_Gather env (gathers w))).

(** [http.NewRequest(method, url, body)]: a request with an empty header
    and the buffer's bytes as its body, or the URL's parse error. *)
Definition http_NewRequest (method url : string) (body : list Byte.byte)
  : error + Request :=
  match env_url_error env url with
  | Some e => inl e
  | None => inr {| Request_Method := method;
                   Request_URL := url;
                   Request_Header := ∅;
                   Request_Body := body |}
  end.

(** [client.Do(req)] on a fresh [http.Client]. *)
Definition client_Do (req : Request) : Go (error + Response) :=
  fun w =>
    (emit (HTTPDo req) (count_http_call w),
     Returned (env_Do env (http_calls w) req)).

Definition Body_Close (resp : Response) : Go unit :=
  fun w => (emit (BodyClose resp) w, Returned tt).

(** *** [sendToRemoteWrite] (lines 17-33) *)
Definition sendToRemoteWrite (data : list Byte.byte)
    (remoteWriteURL : string) : Go (option Response * option error) :=
  match http_NewRequest "POST" remoteWriteURL data with
  | inl err =>
      mret (None, Some (Errorf "failed to create HTTP request: %w" err))
  | inr req =>
      let req := Header_Set req "Content-Encoding" "snappy" in
      let req := Header_Set req "Content-Type" "application/x-protobuf" in
      r ← client_Do req;
      match r with
      | inl err =>
          mret (None, Some (Errorf "failed to send HTTP request: %w" err))
      | inr resp => mret (Some resp, None)
      end
  end.

(** *** [createSnappyWithMetricFamily] (lines 35-83) *)

(** Lines 44-49: the metric's label pairs appended one by one. *)
Definition appendLabels (labels : list Label)
    (lps : list (option LabelPair)) : list Label :=
  fold_left
    (fun labels lp =>
       labels ++ [ {| Label_Name := LabelPair_GetName lp;
                      Label_Value := LabelPair_GetValue lp |} ])
    lps labels.

(** Lines 52-67: the switch on [*mf.Type]. *)
Definition switchType (t : MetricType) (m : option Metric) : Go float :=
  if t =? MetricType_COUNTER then
    mret (Counter_GetValue (Metric_GetCounter m))
  else if t =? MetricType_GAUGE then
    mret (Gauge_GetValue (Metric_GetGauge m))
  else if t =? MetricType_UNTYPED then
    mret (Untyped_GetValue (Metric_GetUntyped m))
  else if t =? MetricType_SUMMARY then
    mret (Summary_GetSampleSum (Metric_GetSummary m))
  else if t =? MetricType_HISTOGRAM then
    mret (Histogram_GetSampleSum (Metric_GetHistogram m))
  else
    log_Fatalf "Unknown metric type: %v" [AMetricType t].

(** Lines 41-77: the body of the inner loop.  [m.Label] dereferences the
    metric and [*mf.Type] the type pointer. *)
Definition metricBody (tStamp : Z) (mf : MetricFamily)
    (m : option Metric) (ts : list TimeSeries) : Go (list TimeSeries) :=
  match m with
  | None => panic nil_dereference
  | Some m0 =>
      let labels :=
        appendLabels
          [ {| Label_Name := "__name__";
               Label_Value := MetricFamily_GetName (Some mf) |} ]
          (Metric_Label m0) in
      let samples : list Sample := [] in
      match MetricFamily_Type mf with
      | None => panic nil_dereference
      | Some t =>
          value ← switchType t m;
          let samples :=
            samples ++ [ {| Sample_Value := value;
                            Sample_Timestamp := tStamp |} ] in
          mret (ts ++ [ {| TimeSeries_Labels := labels;
                           TimeSeries_Samples := samples |} ])
      end
  end.

(** Lines 39-79: the body of the outer loop; [mf.Metric] dereferences
    the family. *)
Definition familyBody (tStamp : Z) (mf : option MetricFamily)
    (ts : list TimeSeries) : Go (list TimeSeries) :=
  match mf with
  | None => panic nil_dereference
  | Some mf0 => forRange (metricBody tStamp mf0) (MetricFamily_Metric mf0) ts
  end.

(** [time.Millisecond] as an [int64]; Go's [/] truncates towards zero. *)
Definition time_Millisecond : Z := 1000000.

(** The returned pointer is always [&prompb.WriteRequest{...}], never
    nil, so the result carries the request itself. *)
Definition createSnappyWithMetricFamily (mfs : list (option MetricFamily))
  : Go (WriteRequest * option error) :=
  let ts : list TimeSeries := [] in
  now ← time_Now_UnixNano;
  let tStamp := Z.quot now time_Millisecond in
  ts ← forRange (familyBody tStamp) mfs ts;
  _ ← fmt_Printf "Writing %v metrics at time: %v\n"
        [AInt (Z.of_nat (length ts)); AInt tStamp];
  mret ({| WriteRequest_Timeseries := ts |}, None).

(** *** [RemoteWrite] (lines 85-122) *)

(** Lines 90-119: one iteration of [for range ticker.C]. *)
Definition iteration (remoteWriteURL : string) : Go unit :=
  g ← DefaultGatherer_Gather;
  match g with
  | inl err => log_Fatalf "Failed to gather metrics: %v" [AError err]
  | inr m =>
  '(wr, err) ← createSnappyWithMetricFamily m;
  match err with
  | Some err =>
      log_Fatalf "Failed to create snappy with metric family: %v"
        [AError err]
  | None =>
  match env_Marshal env wr with
  | inl err => log_Fatalf "unable to marshal protobuf: %v" [AError err]
  | inr data =>
  let buf := env_snappy_Encode env data in
  '(resp, err) ← sendToRemoteWrite buf remoteWriteURL;
  match err with
  | Some err =>
      log_Fatalf "Failed to send data to remote write endpoint: %v"
        [AError err]
  | None =>
  match resp with
  | None => panic nil_dereference
  | Some resp =>
  _ ← (if negb (Response_StatusCode resp =? StatusOK) then
         _ ← Body_Close resp;
         log_Fatalf "Unexpected response status: %s"
           [AString (Response_Status resp)]
       else mret tt);
  _ ← Body_Close resp;
  log_Println "Data written successfully to Prometheus remote storage"
  end end end end end.

(** The loop over the ticker's channel, for the first [ticks] ticks it
    delivers. *)
Fixpoint tickLoop (remoteWriteURL : string) (ticks : nat) : Go unit :=
  match ticks with
  | O => mret tt
  | S n => _ ← iteration remoteWriteURL; tickLoop remoteWriteURL n
  end.

(** [time.NewTicker] panics on a non-positive interval.  The deferred
    [ticker.Stop] has no effect an observer of the [World] sees. *)
Definition RemoteWrite (remoteWriteURL : string) (frequency : Z)
    (ticks : nat) : Go unit :=
  if frequency <=? 0 then
    panic "non-positive interval for NewTicker"
  else tickLoop remoteWriteURL ticks.

End Pipeline.

(** ** Vocabulary of the properties *)

(** The types the switch has a case for: the spec's dispatch table. *)
Definition dispatch_table : list MetricType :=
  [ MetricType_COUNTER; MetricType_GAUGE; MetricType_UNTYPED;
    MetricType_SUMMARY; MetricType_HISTOGRAM ].

Definition recognized (t : MetricType) : bool :=
  bool_decide (t ∈ dispatch_table).

(** The spec's extraction rule, entry by entry: Counter to the counter
    value, Gauge to the gauge value, Untyped to the untyped value, Summary
    and Histogram to their sum of observed samples. *)
Definition dispatch_rule (t : MetricType) (m : option Metric) (v : float)
  : Prop :=
  (t = MetricType_COUNTER -> v = Counter_GetValue (Metric_GetCounter m)) /\
  (t = MetricType_GAUGE -> v = Gauge_GetValue (Metric_GetGauge m)) /\
  (t = MetricType_UNTYPED -> v = Untyped_GetValue (Metric_GetUntyped m)) /\
  (t = MetricType_SUMMARY ->
     v = Summary_GetSampleSum (Metric_GetSummary m)) /\
  (t = MetricType_HISTOGRAM ->
     v = Histogram_GetSampleSum (Metric_GetHistogram m)).

(** The typed payload the family's type points at is missing. *)
Definition payload_absent (t : MetricType) (m : Metric) : Prop :=
  (t = MetricType_COUNTER /\ Metric_Counter m = None) \/
  (t = MetricType_GAUGE /\ Metric_Gauge m = None) \/
  (t = MetricType_UNTYPED /\ Metric_Untyped m = None) \/
  (t = MetricType_SUMMARY /\ Metric_Summary m = None) \/
  (t = MetricType_HISTOGRAM /\ Metric_Histogram m = None).

Definition is_set {A} (p : option A) : bool :=
  match p with Some _ => true | None => false end.

Definition type_recognized (mf : MetricFamily) : bool :=
  match MetricFamily_Type mf with
  | Some t => recognized t
  | None => false
  end.

(** The snapshots the conversion gets through: every family pointer and
    every metric pointer is set, and a family that has a metric has a type
    of the dispatch table. *)
Definition family_convertible (mf : option MetricFamily) : bool :=
  match mf with
  | None => false
  | Some mf0 =>
      forallb is_set (MetricFamily_Metric mf0) &&
      (bool_decide (MetricFamily_Metric mf0 = []) || type_recognized mf0)
  end.

Definition convertible (mfs : list (option MetricFamily)) : bool :=
  forallb family_convertible mfs.

(** No family, metric or type pointer of the snapshot is nil. *)
Definition family_no_nil (mf : option MetricFamily) : bool :=
  match mf with
  | None => false
  | Some mf0 =>
      is_set (MetricFamily_Type mf0) &&
      forallb is_set (MetricFamily_Metric mf0)
  end.

Definition no_nil (mfs : list (option MetricFamily)) : bool :=
  forallb family_no_nil mfs.

(** A family with at least one metric whose type the switch has no case
    for. *)
Definition unknown_family (mf : option MetricFamily) : bool :=
  match mf with
  | None => false
  | Some mf0 =>
      negb (bool_decide (MetricFamily_Metric mf0 = [])) &&
      negb (type_recognized mf0)
  end.

(** The metrics of a snapshot with their families, in snapshot order. *)
Definition metric_pairs (mfs : list (option MetricFamily))
  : list (MetricFamily * Metric) :=
  flat_map
    (fun mf => map (pair mf) (omap id (MetricFamily_Metric mf)))
    (omap id mfs).

(** N: the number of metric entries summed over the families. *)
Definition total_metrics (mfs : list (option MetricFamily)) : nat :=
  sum_list (map (fun mf => length (MetricFamily_Metric mf)) (omap id mfs)).

Definition name_label (mf : MetricFamily) : Label :=
  {| Label_Name := "__name__";
     Label_Value := MetricFamily_GetName (Some mf) |}.

(** The label a label pair becomes. *)
Definition toLabel (lp : option LabelPair) : Label :=
  {| Label_Name := LabelPair_GetName lp;
     Label_Value := LabelPair_GetValue lp |}.

(** The series the conversion owes to metric [m] of family [mf]. *)
Definition series_for (tStamp : Z) (mf : MetricFamily) (m : Metric)
    (x : TimeSeries) : Prop :=
  exists t v,
    MetricFamily_Type mf = Some t /\ recognized t = true /\
    dispatch_rule t (Some m) v /\
    x = {| TimeSeries_Labels := name_label mf :: map toLabel (Metric_Label m);
           TimeSeries_Samples :=
             [ {| Sample_Value := v; Sample_Timestamp := tStamp |} ] |}.

Definition pair_series (tStamp : Z) (p : MetricFamily * Metric)
    (x : TimeSeries) : Prop :=
  series_for tStamp (fst p) (snd p) x.

(** The capture timestamp of a conversion that starts in world [w]. *)
Definition capture_ms (env : Env) (w : World) : Z :=
  Z.quot (env_UnixNano env (clock_reads w)) 1000000.

(** The line the conversion prints before it returns. *)
Definition writing_line (n : nat) (tStamp : Z) : Event :=
  Stdout "Writing %v metrics at time: %v\n" [AInt (Z.of_nat n); AInt tStamp].

(** The line [log.Fatalf] leaves for a type the switch has no case for. *)
Definition unknown_type_line (t : MetricType) : Event :=
  Logged "Unknown metric type: %v" [AMetricType t].

(** The events a run added to the trace. *)
Definition added (w w' : World) (new : list Event) : Prop :=
  trace w' = trace w ++ new.

(** What a run of the builder's loops does to the world: nothing, unless
    it ends in [log.Fatalf] on a type outside the dispatch table. *)
Definition builder_step {A} (w w' : World) (o : Outcome A) : Prop :=
  (w' = w /\ forall code, o <> Exited code) \/
  (exists t, recognized t = false /\
     w' = emit (unknown_type_line t) w /\ o = Exited 1).

(** The request [sendToRemoteWrite] builds for a URL and a payload. *)
Definition delivery_request (url : string) (data : list Byte.byte) : Request :=
  Header_Set
    (Header_Set
       {| Request_Method := "POST"; Request_URL := url;
          Request_Header := ∅; Request_Body := data |}
       "Content-Encoding" "snappy")
    "Content-Type" "application/x-protobuf".

(** The events of one pipeline run, as the properties below need them: a
    request is the delivery request of the marshalled and compressed
    envelope that the conversion built from a gathered snapshot, and no
    log line reports a failed conversion. *)
Definition pipeline_event (env : Env) (url : string) (ev : Event) : Prop :=
  match ev with
  | HTTPDo req =>
      exists n mfs w0 w1 wr data,
        env_Gather env n = inr mfs /\
        createSnappyWithMetricFamily env mfs w0 = (w1, Returned (wr, None)) /\
        env_Marshal env wr = inr data /\
        req = delivery_request url (env_snappy_Encode env data)
  | Logged format _ =>
      format <> "Failed to create snappy with metric family: %v"
  | _ => True
  end.

(** ** A concrete world for examples *)

Definition world0 : World :=
  {| clock_reads := 0; gathers := 0; http_calls := 0; trace := [] |}.

Definition no_payload (labels : list (option LabelPair)) : Metric :=
  {| Metric_Label := labels; Metric_Gauge := None; Metric_Counter := None;
     Metric_Summary := None; Metric_Untyped := None;
     Metric_Histogram := None |}.

Definition pair_of (name value : string) : option LabelPair :=
  Some {| LabelPair_Name := Some name; LabelPair_Value := Some value |}.

Definition gauge_metric (labels : list (option LabelPair)) (v : float)
  : option Metric :=
  Some {| Metric_Label := labels;
          Metric_Gauge := Some {| Gauge_Value := Some v |};
          Metric_Counter := None; Metric_Summary := None;
          Metric_Untyped := None; Metric_Histogram := None |}.

Definition counter_metric (labels : list (option LabelPair)) (v : float)
  : option Metric :=
  Some {| Metric_Label := labels; Metric_Gauge := None;
          Metric_Counter := Some {| Counter_Value := Some v |};
          Metric_Summary := None; Metric_Untyped := None;
          Metric_Histogram := None |}.

Definition untyped_metric (v : float) : option Metric :=
  Some {| Metric_Label := []; Metric_Gauge := None; Metric_Counter := None;
          Metric_Summary := None;
          Metric_Untyped := Some {| Untyped_Value := Some v |};
          Metric_Histogram := None |}.

Definition summary_metric (n : Z) (sum : float) : option Metric :=
  Some {| Metric_Label := []; Metric_Gauge := None; Metric_Counter := None;
          Metric_Summary :=
            Some {| Summary_SampleCount := Some n;
                    Summary_SampleSum := Some sum |};
          Metric_Untyped := None; Metric_Histogram := None |}.

Definition histogram_metric (labels : list (option LabelPair)) (n : Z)
    (sum : float) : option Metric :=
  Some {| Metric_Label := labels; Metric_Gauge := None;
          Metric_Counter := None; Metric_Summary := None;
          Metric_Untyped := None;
          Metric_Histogram :=
            Some {| Histogram_SampleCount := Some n;
                    Histogram_SampleSum := Some sum |} |}.

Definition family (name : string) (t : MetricType)
    (ms : list (option Metric)) : option MetricFamily :=
  Some {| MetricFamily_Name := Some name;
          MetricFamily_Type := Some t;
          MetricFamily_Metric := ms |}.

(** Scenario A of the spec: one Gauge family "up" with value 1.0. *)
Definition scenario_A : list (option MetricFamily) :=
  [ family "up" MetricType_GAUGE [ gauge_metric [] 1%float ] ].

(** A snapshot with a family of each type of the dispatch table, one of
    them empty, and a counter metric whose payload is missing. *)
Definition mixed_snapshot : list (option MetricFamily) :=
  [ family "runs_total" MetricType_COUNTER
      [ counter_metric [] 7%float; Some (no_payload [pair_of "job" "a"]) ];
    family "up" MetricType_GAUGE [ gauge_metric [] 1%float ];
    family "empty" MetricType_GAUGE [];
    family "legacy" MetricType_UNTYPED [ untyped_metric 3%float ];
    family "latency" MetricType_SUMMARY [ summary_metric 4 2.5%float ];
    family "duration_seconds" MetricType_HISTOGRAM
      [ histogram_metric [pair_of "handler" "foo"] 2 0.25%float;
        histogram_metric [pair_of "handler" "bar"; None] 5 1.5%float ] ].

(** A family of a type outside the dispatch table that has no metric. *)
Definition empty_unknown_snapshot : list (option MetricFamily) :=
  [ family "native" MetricType_GAUGE_HISTOGRAM [] ].

(** A family of a type outside the dispatch table after a convertible
    one. *)
Definition unknown_snapshot : list (option MetricFamily) :=
  [ family "up" MetricType_GAUGE [ gauge_metric [] 1%float ];
    family "native" MetricType_GAUGE_HISTOGRAM
      [ histogram_metric [] 2 0.25%float ] ].

(** Bytes standing for the marshalled envelope: one byte per series. *)
Definition toy_Marshal (wr : WriteRequest) : error + list Byte.byte :=
  inr (map (fun _ => Byte.x0a) (WriteRequest_Timeseries wr)).

Definition toy_Encode (data : list Byte.byte) : list Byte.byte :=
  Byte.xff :: data.

(** An endpoint that answers every request with [status]. *)
Definition endpoint_env (snapshot : list (option MetricFamily))
    (status : string) (code : Z) : Env :=
  {| env_UnixNano := fun n => 1700000000123456789 + 5000000000 * Z.of_nat n;
     env_Gather := fun _ => inr snapshot;
     env_Marshal := toy_Marshal;
     env_snappy_Encode := toy_Encode;
     env_url_error := fun _ => None;
     env_Do := fun _ _ =>
       inr {| Response_Status := status; Response_StatusCode := code |} |}.

Definition endpoint_url : string := "http://localhost:9090/api/v1/write".


(** The ways a family stops the conversion on a nil pointer: the family
    pointer is nil; or a metric pointer is nil and the metrics before it
    went through (there are none, or the type is of the dispatch table);
    or the type pointer is nil and the first metric pointer is set. *)
Definition nil_obstacle (mf : option MetricFamily) : Prop :=
  mf = None \/
  (exists mf0 ms1 ms2,
     mf = Some mf0 /\ MetricFamily_Metric mf0 = ms1 ++ None :: ms2 /\
     forallb is_set ms1 = true /\
     (ms1 = [] \/ type_recognized mf0 = true)) \/
  (exists mf0 m ms,
     mf = Some mf0 /\ MetricFamily_Metric mf0 = Some m :: ms /\
     MetricFamily_Type mf0 = None).

(** The stages of one iteration that lie before the request: the gather
    gave a snapshot and the conversion returned a write request. *)
Definition converted (env : Env) (w : World)
    (mfs : list (option MetricFamily)) (w1 : World) (wr : WriteRequest)
  : Prop :=
  env_Gather env (gathers w) = inr mfs /\
  createSnappyWithMetricFamily env mfs (count_gather w) =
    (w1, Returned (wr, None)).

(** The world after [client.Do] on the delivery request of [data]. *)
Definition after_request (env : Env) (url : string) (data : list Byte.byte)
    (w1 : World) : World :=
  emit (HTTPDo (delivery_request url (env_snappy_Encode env data)))
    (count_http_call w1).

(** What [client.Do] answers to the delivery request of [data] in world
    [w1]. *)
Definition answer (env : Env) (url : string) (data : list Byte.byte)
    (w1 : World) : error + Response :=
  env_Do env (http_calls w1)
    (delivery_request url (env_snappy_Encode env data)).

(** The eight ways one iteration of [RemoteWrite] ends, by the first
    stage that does not go through. *)
Inductive IterationEnd (env : Env) (url : string) (w : World)
  : World -> Outcome unit -> Prop :=
| gather_failed e :
    env_Gather env (gathers w) = inl e ->
    IterationEnd env url w
      (emit (Logged "Failed to gather metrics: %v" [AError e])
         (count_gather w))
      (Exited 1)
| conversion_exited mfs w1 :
    env_Gather env (gathers w) = inr mfs ->
    createSnappyWithMetricFamily env mfs (count_gather w) = (w1, Exited 1) ->
    IterationEnd env url w w1 (Exited 1)
| conversion_panicked mfs w1 reason :
    env_Gather env (gathers w) = inr mfs ->
    createSnappyWithMetricFamily env mfs (count_gather w) =
      (w1, Panicked reason) ->
    IterationEnd env url w w1 (Panicked reason)
| marshal_failed mfs w1 wr e :
    converted env w mfs w1 wr ->
    env_Marshal env wr = inl e ->
    IterationEnd env url w
      (emit (Logged "unable to marshal protobuf: %v" [AError e]) w1)
      (Exited 1)
| request_failed mfs w1 wr data e :
    converted env w mfs w1 wr ->
    env_Marshal env wr = inr data ->
    env_url_error env url = Some e ->
    IterationEnd env url w
      (emit (Logged "Failed to send data to remote write endpoint: %v"
               [AError (Errorf "failed to create HTTP request: %w" e)]) w1)
      (Exited 1)
| transport_failed mfs w1 wr data e :
    converted env w mfs w1 wr ->
    env_Marshal env wr = inr data ->
    env_url_error env url = None ->
    answer env url data w1 = inl e ->
    IterationEnd env url w
      (emit (Logged "Failed to send data to remote write endpoint: %v"
               [AError (Errorf "failed to send HTTP request: %w" e)])
         (after_request env url data w1))
      (Exited 1)
| delivery_rejected mfs w1 wr data resp :
    converted env w mfs w1 wr ->
    env_Marshal env wr = inr data ->
    env_url_error env url = None ->
    answer env url data w1 = inr resp ->
    Response_StatusCode resp <> 200 ->
    IterationEnd env url w
      (emit (Logged "Unexpected response status: %s"
               [AString (Response_Status resp)])
         (emit (BodyClose resp) (after_request env url data w1)))
      (Exited 1)
| delivered mfs w1 wr data resp :
    converted env w mfs w1 wr ->
    env_Marshal env wr = inr data ->
    env_url_error env url = None ->
    answer env url data w1 = inr resp ->
    Response_StatusCode resp = 200 ->
    IterationEnd env url w
      (emit (Logged "Data written successfully to Prometheus remote storage"
               [])
         (emit (BodyClose resp) (after_request env url data w1)))
      (Returned tt).

Definition is_HTTPDo (ev : Event) : bool :=
  match ev with HTTPDo _ => true | _ => false end.

Definition is_BodyClose (ev : Event) : bool :=
  match ev with BodyClose _ => true | _ => false end.

(** How many events of a kind a list of events holds. *)
Definition count_events (kind : Event -> bool) (evs : list Event) : nat :=
  length (List.filter kind evs).

(** The request owed to the tick whose gather is call number [g] and
    whose clock reading is reading number [c]: the delivery request of the
    compressed marshalling of the series of that snapshot, stamped with
    that reading. *)
Definition request_of_tick (env : Env) (url : string) (g c : nat)
    (req : Request) : Prop :=
  exists mfs tss data,
    env_Gather env g = inr mfs /\
    Forall2 (pair_series (Z.quot (env_UnixNano env c) 1000000))
      (metric_pairs mfs) tss /\
    env_Marshal env {| WriteRequest_Timeseries := tss |} = inr data /\
    req = delivery_request url (env_snappy_Encode env data).

(** A family pointer the conversion has something to do with: nil, or a
    family with at least one metric. *)
Definition has_work (mf : option MetricFamily) : bool :=
  match mf with
  | None => true
  | Some mf0 => negb (bool_decide (MetricFamily_Metric mf0 = []))
  end.

(** ** The background task of the sample application

    [periodicBackgroundTask] of [example/main.go]: four metrics are
    registered, then every round sleeps, stamps the run, draws whether it
    succeeded and moves the metrics.  A counter is the number of its
    [Inc] calls, a gauge the last value [Set]; the registry is the set of
    the names registered, and [MustRegister] panics on a name it already
    holds.  The clock and [rand.Float64] are oracles, read in call
    order. *)
Module sample_app.

Record TaskEnv := {
  task_UnixNano : nat -> Z;
  task_Float64 : nat -> float }.

(** [float64(z)] for an [int64]: the nearest binary64 value. *)
Definition float64_of_int64 (z : Z) : float :=
  if z <? 0 then
    if z =? -9223372036854775808 then (-9223372036854775808)%float
    else PrimFloat.opp (PrimFloat.of_uint63 (Uint63.of_Z (- z)))
  else PrimFloat.of_uint63 (Uint63.of_Z z).

Definition MinInt64 : Z := -9223372036854775808.
Definition MaxInt64 : Z := 9223372036854775807.

(** [int64(f)] for a [float64]: the fraction is dropped; a value no
    [int64] holds gives the smallest one, as the amd64 conversion does. *)
Definition int64_of_float64 (f : float) : Z :=
  match Prim2SF f with
  | S754_zero _ => 0
  | S754_finite s m e =>
      let magnitude :=
        if 0 <=? e then Z.pos m * 2 ^ e else Z.pos m / 2 ^ (- e) in
      let v := if s then - magnitude else magnitude in
      if (MinInt64 <=? v) && (v <=? MaxInt64) then v else MinInt64
  | _ => MinInt64
  end.

(** [int64] arithmetic wraps around. *)
Definition wrap64 (z : Z) : Z :=
  (z - MinInt64) mod 2 ^ 64 + MinInt64.

Definition time_Second : Z := 1000000000.

Record TaskState := {
  task_clock_reads : nat;
  task_draws : nat;
  slept : list Z;
  ticks_awaited : nat;
  totalCount : nat;
  failureCount : nat;
  lastRun : float;
  lastSuccess : float }.

(** The state right after the four metrics are created. *)
Definition fresh_metrics : TaskState :=
  {| task_clock_reads := 0; task_draws := 0; slept := []; ticks_awaited := 0;
     totalCount := 0; failureCount := 0;
     lastRun := 0%float; lastSuccess := 0%float |}.

(** [reg.MustRegister(c)] for the collector named [name]. *)
Definition MustRegister (name : string) (reg : gset string)
  : Outcome (gset string) :=
  if bool_decide (name ∈ reg) then
    Panicked "duplicate metrics collector registration attempted"
  else Returned ({[ name ]} ∪ reg).

Definition task_names : list string :=
  [ "sample_background_task_runs_total";
    "sample_background_task_failures_total";
    "sample_background_task_last_run_timestamp_seconds";
    "sample_background_task_last_success_timestamp_seconds" ].

Fixpoint registerAll (names : list string) (reg : gset string)
  : Outcome (gset string) :=
  match names with
  | [] => Returned reg
  | name :: rest =>
      match MustRegister name reg with
      | Returned reg' => registerAll rest reg'
      | Exited code => Exited code
      | Panicked reason => Panicked reason
      end
  end.

(** The float constant 0.3 of the source: the nearest binary64 value. *)
Definition success_threshold : float := 0x1.3333333333333p-2%float.

(** Lines 88-106: one round of the loop. *)
Definition taskRound (env : TaskEnv) (s : TaskState) : TaskState :=
  let pause :=
    wrap64 (wrap64 (1 * time_Second) +
            wrap64 (int64_of_float64
                      (PrimFloat.mul (task_Float64 env (task_draws s))
                         500%float) * 1000000)) in
  let lastRunTimestamp :=
    PrimFloat.div
      (float64_of_int64 (task_UnixNano env (task_clock_reads s)))
      1e9%float in
  let succeeded :=
    PrimFloat.ltb success_threshold (task_Float64 env (S (task_draws s))) in
  {| task_clock_reads := S (task_clock_reads s);
     task_draws := S (S (task_draws s));
     slept := slept s ++ [pause];
     ticks_awaited := S (ticks_awaited s);
     totalCount := S (totalCount s);
     failureCount := if succeeded then failureCount s
                     else S (failureCount s);
     lastRun := lastRunTimestamp;
     lastSuccess := if succeeded then lastRunTimestamp else lastSuccess s |}.

(** The endless [for] loop, for its first [rounds] rounds. *)
Fixpoint taskLoop (env : TaskEnv) (rounds : nat) (s : TaskState)
  : TaskState :=
  match rounds with
  | O => s
  | S n => taskLoop env n (taskRound env s)
  end.

Definition periodicBackgroundTask (env : TaskEnv) (reg : gset string)
    (rounds : nat) : Outcome (gset string * TaskState) :=
  match registerAll task_names reg with
  | Returned reg' => Returned (reg', taskLoop env rounds fresh_metrics)
  | Exited code => Exited code
  | Panicked reason => Panicked reason
  end.

(** The stamp of round [k] of a task started on fresh metrics, and
    whether that round succeeded. *)
Definition stamp (env : TaskEnv) (k : nat) : float :=
  PrimFloat.div (float64_of_int64 (task_UnixNano env k)) 1e9%float.

Definition succeeded (env : TaskEnv) (k : nat) : bool :=
  PrimFloat.ltb success_threshold (task_Float64 env (S (2 * k))).

(** A clock ten seconds apart and draws that alternate between 0.75 and
    0.25. *)
Definition task_env : TaskEnv :=
  {| task_UnixNano := fun n => 1700000000000000000 + 10000000000 * Z.of_nat n;
     task_Float64 := fun n =>
       if Nat.even (n / 2) then 0.75%float else 0.25%float |}.

End sample_app.

(** ** Tactics *)

Ltac go_unfold := unfold mbind, mret, Go_bind, Go_ret in *.

Ltac solve_added :=
  unfold added; subst; simpl; rewrite ?app_nil_r; reflexivity.

(** ** The monad's equations *)

Lemma bind_Returned {A B} (c : Go A) (k : A -> Go B) w w' a :
  c w = (w', Returned a) -> (x ← c; k x) w = k a w'.
Proof. intros H. go_unfold. now rewrite H. Qed.

Lemma bind_Exited {A B} (c : Go A) (k : A -> Go B) w w' code :
  c w = (w', Exited code) -> (x ← c; k x) w = (w', Exited code).
Proof. intros H. go_unfold. now rewrite H. Qed.

Lemma bind_Panicked {A B} (c : Go A) (k : A -> Go B) w w' reason :
  c w = (w', Panicked reason) -> (x ← c; k x) w = (w', Panicked reason).
Proof. intros H. go_unfold. now rewrite H. Qed.

Lemma forRange_cons_Returned {A S} (body : A -> S -> Go S) x xs acc acc' w w' :
  body x acc w = (w', Returned acc') ->
  forRange body (x :: xs) acc w = forRange body xs acc' w'.
Proof. intros H. simpl. now apply bind_Returned. Qed.

(** ** The series builder *)

Lemma appendLabels_app labels lps :
  appendLabels labels lps = labels ++ map toLabel lps.
Proof.
  unfold appendLabels. revert labels.
  induction lps as [|lp lps IH]; intros labels; simpl.
  - now rewrite app_nil_r.
  - rewrite IH, <- app_assoc. reflexivity.
Qed.

Lemma recognized_cases t :
  recognized t = true ->
  t = MetricType_COUNTER \/ t = MetricType_GAUGE \/ t = MetricType_UNTYPED \/
  t = MetricType_SUMMARY \/ t = MetricType_HISTOGRAM.
Proof.
  unfold recognized, dispatch_table. rewrite bool_decide_eq_true.
  rewrite !elem_of_cons, elem_of_nil. tauto.
Qed.

Lemma switchType_recognized t m w :
  recognized t = true ->
  exists v, switchType t m w = (w, Returned v) /\ dispatch_rule t m v.
Proof.
  intros H.
  destruct (recognized_cases t H) as [-> | [-> | [-> | [-> | ->]]]];
    (eexists; split; [reflexivity |]);
    unfold dispatch_rule; repeat split; intros E;
    solve [reflexivity | vm_compute in E; discriminate E].
Qed.

Lemma switchType_unknown t m w :
  recognized t = false ->
  switchType t m w =
    (emit (Logged "Unknown metric type: %v" [AMetricType t]) w, Exited 1).
Proof.
  intros H. unfold switchType.
  repeat match goal with
  | |- context [?a =? ?b] =>
      destruct (Z.eqb_spec a b) as [-> | _];
        [vm_compute in H; discriminate H |]
  end.
  reflexivity.
Qed.

Lemma metricBody_recognized tStamp mf m ts t w :
  MetricFamily_Type mf = Some t -> recognized t = true ->
  exists x,
    metricBody tStamp mf (Some m) ts w = (w, Returned (ts ++ [x])) /\
    series_for tStamp mf m x.
Proof.
  intros Ht Hr.
  destruct (switchType_recognized t (Some m) w Hr) as (v & Hv & Hrule).
  eexists. split.
  - unfold metricBody. rewrite Ht.
    rewrite (bind_Returned _ _ _ _ _ Hv). go_unfold.
    rewrite appendLabels_app. reflexivity.
  - exists t, v. split; [exact Ht|]. split; [exact Hr|].
    split; [exact Hrule | reflexivity].
Qed.

Lemma metricBody_unknown tStamp mf m ts t w :
  MetricFamily_Type mf = Some t -> recognized t = false ->
  metricBody tStamp mf (Some m) ts w = (emit (unknown_type_line t) w, Exited 1).
Proof.
  intros Ht Hr. unfold metricBody. rewrite Ht.
  apply bind_Exited, switchType_unknown, Hr.
Qed.

Lemma metrics_loop_recognized tStamp mf t :
  MetricFamily_Type mf = Some t -> recognized t = true ->
  forall ms ts w,
    forallb is_set ms = true ->
    exists new,
      forRange (metricBody tStamp mf) ms ts w = (w, Returned (ts ++ new)) /\
      Forall2 (pair_series tStamp) (map (pair mf) (omap id ms)) new.
Proof.
  intros Ht Hr ms.
  induction ms as [|m ms IH]; intros ts w Hset.
  - exists []. rewrite app_nil_r. split; [reflexivity | constructor].
  - simpl in Hset. apply andb_true_iff in Hset as [Hm Hms].
    destruct m as [m|]; [|discriminate Hm].
    destruct (metricBody_recognized tStamp mf m ts t w Ht Hr) as (x & Hx & Hsx).
    destruct (IH (ts ++ [x]) w Hms) as (new & Hnew & Hall).
    exists (x :: new). split.
    + rewrite (forRange_cons_Returned _ _ _ _ _ _ _ Hx), Hnew.
      now rewrite <- app_assoc.
    + cbn. constructor; [exact Hsx | exact Hall].
Qed.

Lemma familyBody_convertible tStamp mf ts w :
  family_convertible (Some mf) = true ->
  exists new,
    familyBody tStamp (Some mf) ts w = (w, Returned (ts ++ new)) /\
    Forall2 (pair_series tStamp)
      (map (pair mf) (omap id (MetricFamily_Metric mf))) new.
Proof.
  intros Hmf. simpl in Hmf. apply andb_true_iff in Hmf as [Hset Hty].
  apply orb_true_iff in Hty as [Hempty | Hty].
  - apply bool_decide_eq_true in Hempty. exists [].
    unfold familyBody. rewrite Hempty, app_nil_r.
    split; [reflexivity | constructor].
  - unfold type_recognized in Hty.
    destruct (MetricFamily_Type mf) as [t|] eqn:Ht; [|discriminate Hty].
    apply (metrics_loop_recognized tStamp mf t Ht Hty _ ts w Hset).
Qed.

Lemma families_loop_convertible tStamp :
  forall mfs ts w,
    convertible mfs = true ->
    exists new,
      forRange (familyBody tStamp) mfs ts w = (w, Returned (ts ++ new)) /\
      Forall2 (pair_series tStamp) (metric_pairs mfs) new.
Proof.
  induction mfs as [|mf mfs IH]; intros ts w Hc.
  - exists []. rewrite app_nil_r. split; [reflexivity | constructor].
  - simpl in Hc. apply andb_true_iff in Hc as [Hmf Hmfs].
    destruct mf as [mf|]; [|discriminate Hmf].
    destruct (familyBody_convertible tStamp mf ts w Hmf)
      as (new1 & H1 & Hall1).
    destruct (IH (ts ++ new1) w Hmfs) as (new2 & H2 & Hall2).
    exists (new1 ++ new2). split.
    + rewrite (forRange_cons_Returned _ _ _ _ _ _ _ H1), H2.
      now rewrite <- app_assoc.
    + unfold metric_pairs. cbn. apply Forall2_app; assumption.
Qed.

Lemma createSnappy_convertible env mfs w :
  convertible mfs = true ->
  exists tss,
    createSnappyWithMetricFamily env mfs w =
      (emit (writing_line (length tss) (capture_ms env w))
         (count_clock_read w),
       Returned ({| WriteRequest_Timeseries := tss |}, None)) /\
    Forall2 (pair_series (capture_ms env w)) (metric_pairs mfs) tss.
Proof.
  intros Hc.
  destruct (families_loop_convertible (capture_ms env w) mfs []
              (count_clock_read w) Hc) as (tss & Hrun & Hall).
  exists tss. split; [|exact Hall].
  unfold createSnappyWithMetricFamily.
  rewrite (bind_Returned _ _ w (count_clock_read w)
             (env_UnixNano env (clock_reads w))) by reflexivity.
  fold (capture_ms env w) in *. unfold time_Millisecond.
  fold (capture_ms env w).
  rewrite (bind_Returned _ _ _ _ _ Hrun). reflexivity.
Qed.

Lemma metricBody_step tStamp mf m ts w w' o :
  metricBody tStamp mf m ts w = (w', o) -> builder_step w w' o.
Proof.
  unfold metricBody. destruct m as [m|].
  - destruct (MetricFamily_Type mf) as [t|] eqn:Ht.
    + destruct (recognized t) eqn:Hr.
      * destruct (switchType_recognized t (Some m) w Hr) as (v & Hv & _).
        rewrite (bind_Returned _ _ _ _ _ Hv). go_unfold.
        intros [= <- <-]. left. split; [reflexivity | discriminate].
      * rewrite (bind_Exited _ _ _ _ _ (switchType_unknown t (Some m) w Hr)).
        intros [= <- <-]. right. exists t. auto.
    + intros [= <- <-]. left. split; [reflexivity | discriminate].
  - intros [= <- <-]. left. split; [reflexivity | discriminate].
Qed.

Lemma forRange_step {A S} (body : A -> S -> Go S) :
  (forall x acc w w' o, body x acc w = (w', o) -> builder_step w w' o) ->
  forall xs acc w w' o,
    forRange body xs acc w = (w', o) -> builder_step w w' o.
Proof.
  intros Hbody xs.
  induction xs as [|x xs IH]; intros acc w w' o; simpl.
  - go_unfold. intros [= <- <-]. left. split; [reflexivity | discriminate].
  - go_unfold. destruct (body x acc w) as [w1 o1] eqn:Hx.
    specialize (Hbody _ _ _ _ _ Hx).
    destruct o1 as [acc1 | code | reason].
    + destruct Hbody as [[-> _] | (t & _ & _ & [=])]. apply IH.
    + intros [= <- <-]. destruct Hbody as [[_ Hno] | Hex].
      * now destruct (Hno code).
      * right. exact Hex.
    + intros [= <- <-]. destruct Hbody as [[-> _] | (t & _ & _ & [=])].
      left. split; [reflexivity | discriminate].
Qed.

Lemma familyBody_step tStamp mf ts w w' o :
  familyBody tStamp mf ts w = (w', o) -> builder_step w w' o.
Proof.
  unfold familyBody. destruct mf as [mf|].
  - apply forRange_step. intros x acc. apply metricBody_step.
  - intros [= <- <-]. left. split; [reflexivity | discriminate].
Qed.

Lemma families_loop_step tStamp mfs ts w w' o :
  forRange (familyBody tStamp) mfs ts w = (w', o) -> builder_step w w' o.
Proof. apply forRange_step. intros x acc. apply familyBody_step. Qed.

(** The conversion reads the clock once, and prints its line exactly when
    it returns; its error result is then nil. *)
Lemma createSnappy_inv env mfs w w' o :
  createSnappyWithMetricFamily env mfs w = (w', o) ->
  (exists tss,
     o = Returned ({| WriteRequest_Timeseries := tss |}, None) /\
     w' = emit (writing_line (length tss) (capture_ms env w))
            (count_clock_read w)) \/
  (exists t, recognized t = false /\ o = Exited 1 /\
     w' = emit (unknown_type_line t) (count_clock_read w)) \/
  (exists reason, o = Panicked reason /\ w' = count_clock_read w).
Proof.
  unfold createSnappyWithMetricFamily.
  rewrite (bind_Returned _ _ w (count_clock_read w)
             (env_UnixNano env (clock_reads w))) by reflexivity.
  unfold time_Millisecond. fold (capture_ms env w).
  destruct (forRange (familyBody (capture_ms env w)) mfs []
              (count_clock_read w)) as [w1 o1] eqn:Hloop.
  pose proof (families_loop_step _ _ _ _ _ _ Hloop) as Hstep.
  destruct o1 as [tss | code | reason].
  - rewrite (bind_Returned _ _ _ _ _ Hloop).
    destruct Hstep as [[-> _] | (t & _ & _ & [=])].
    intros [= <- <-]. left. exists tss. split; reflexivity.
  - rewrite (bind_Exited _ _ _ _ _ Hloop). intros [= <- <-].
    destruct Hstep as [[_ Hno] | (t & Hr & -> & [= ->])].
    + now destruct (Hno code).
    + right. left. exists t. auto.
  - rewrite (bind_Panicked _ _ _ _ _ Hloop). intros [= <- <-].
    destruct Hstep as [[-> _] | (t & _ & _ & [=])].
    right. right. exists reason. auto.
Qed.

(** A type outside the dispatch table on a family that has a metric ends
    the loops in [log.Fatalf], when no nil pointer comes first. *)
Lemma metrics_loop_unknown tStamp mf t m ms ts w :
  MetricFamily_Type mf = Some t -> recognized t = false ->
  forRange (metricBody tStamp mf) (Some m :: ms) ts w =
    (emit (unknown_type_line t) w, Exited 1).
Proof.
  intros Ht Hr. simpl.
  apply bind_Exited, metricBody_unknown; assumption.
Qed.

Lemma families_loop_unknown tStamp :
  forall mfs ts w,
    no_nil mfs = true -> existsb unknown_family mfs = true ->
    exists mf t,
      Some mf ∈ mfs /\ MetricFamily_Type mf = Some t /\
      recognized t = false /\ MetricFamily_Metric mf <> [] /\
      forRange (familyBody tStamp) mfs ts w =
        (emit (unknown_type_line t) w, Exited 1).
Proof.
  induction mfs as [|mf mfs IH]; intros ts w Hnn Hex; [discriminate Hex|].
  simpl in Hnn. apply andb_true_iff in Hnn as [Hmf Hmfs].
  destruct mf as [mf|]; [|discriminate Hmf].
  simpl in Hmf. apply andb_true_iff in Hmf as [Hty Hset].
  destruct (MetricFamily_Type mf) as [t|] eqn:Ht; [|discriminate Hty].
  destruct (unknown_family (Some mf)) eqn:Hu.
  - simpl in Hu. apply andb_true_iff in Hu as [Hne Hnr].
    apply negb_true_iff in Hne. apply bool_decide_eq_false in Hne.
    apply negb_true_iff in Hnr. unfold type_recognized in Hnr.
    rewrite Ht in Hnr.
    exists mf, t. split; [apply elem_of_cons; now left|].
    repeat (split; [assumption|]).
    destruct (MetricFamily_Metric mf) as [|m ms] eqn:Hms; [now destruct Hne|].
    simpl in Hset. apply andb_true_iff in Hset as [Hm _].
    destruct m as [m|]; [|discriminate Hm].
    simpl. apply bind_Exited. unfold familyBody. rewrite Hms.
    apply metrics_loop_unknown; assumption.
  - cbn [existsb] in Hex. rewrite Hu in Hex. cbn [orb] in Hex.
    assert (family_convertible (Some mf) = true) as Hc.
    { simpl. rewrite Hset. simpl. simpl in Hu.
      unfold type_recognized in *. rewrite Ht in *.
      destruct (bool_decide (MetricFamily_Metric mf = [])); [reflexivity|].
      simpl in Hu. now apply negb_false_iff in Hu. }
    destruct (familyBody_convertible tStamp mf ts w Hc) as (new & Hb & _).
    destruct (IH (ts ++ new) w Hmfs Hex)
      as (mf' & t' & Hin & Ht' & Hr' & Hne' & Hrun').
    exists mf', t'. split; [apply elem_of_cons; now right|].
    repeat (split; [assumption|]).
    rewrite (forRange_cons_Returned _ _ _ _ _ _ _ Hb). exact Hrun'.
Qed.

(** The conversion returns on the convertible snapshots only. *)
Lemma metrics_loop_Returned_inv tStamp mf :
  forall ms ts w w' ts',
    forRange (metricBody tStamp mf) ms ts w = (w', Returned ts') ->
    forallb is_set ms = true /\ (ms = [] \/ type_recognized mf = true).
Proof.
  induction ms as [|m ms IH]; intros ts w w' ts' Hrun; [now auto|].
  simpl in Hrun. go_unfold.
  destruct (metricBody tStamp mf m ts w) as [w1 [ts1| |]] eqn:Hb;
    try discriminate Hrun.
  destruct (IH _ _ _ _ Hrun) as [Hset _].
  unfold metricBody in Hb. destruct m as [m|]; [|discriminate Hb].
  unfold type_recognized.
  destruct (MetricFamily_Type mf) as [t|]; [|discriminate Hb].
  destruct (recognized t) eqn:Hr.
  - simpl. rewrite Hset. auto.
  - rewrite (bind_Exited _ _ _ _ _ (switchType_unknown t (Some m) w Hr)) in Hb.
    discriminate Hb.
Qed.

Lemma families_loop_Returned_inv tStamp :
  forall mfs ts w w' ts',
    forRange (familyBody tStamp) mfs ts w = (w', Returned ts') ->
    convertible mfs = true.
Proof.
  induction mfs as [|mf mfs IH]; intros ts w w' ts' Hrun; [reflexivity|].
  simpl in Hrun. go_unfold.
  destruct (familyBody tStamp mf ts w) as [w1 [ts1| |]] eqn:Hb;
    try discriminate Hrun.
  simpl. rewrite (IH _ _ _ _ Hrun), andb_true_r.
  unfold familyBody in Hb. destruct mf as [mf|]; [|discriminate Hb].
  destruct (metrics_loop_Returned_inv _ _ _ _ _ _ _ Hb) as [Hset Hty].
  simpl. rewrite Hset. simpl.
  destruct Hty as [-> | ->]; [reflexivity | apply orb_true_r].
Qed.

Lemma createSnappy_Returned_convertible env mfs w w' r :
  createSnappyWithMetricFamily env mfs w = (w', Returned r) ->
  convertible mfs = true.
Proof.
  unfold createSnappyWithMetricFamily.
  rewrite (bind_Returned _ _ w (count_clock_read w)
             (env_UnixNano env (clock_reads w))) by reflexivity.
  go_unfold.
  destruct (forRange _ mfs [] (count_clock_read w)) as [w1 [ts1| |]] eqn:Hloop;
    try discriminate.
  intros _. eapply families_loop_Returned_inv, Hloop.
Qed.

(** ** The delivery client *)

Lemma delivery_request_fields url data :
  let req := delivery_request url data in
  Request_Method req = "POST" /\
  Request_URL req = url /\
  Request_Body req = data /\
  Request_Header req !! "Content-Encoding" = Some ["snappy"] /\
  Request_Header req !! "Content-Type" = Some ["application/x-protobuf"] /\
  (forall key, key <> "Content-Encoding" -> key <> "Content-Type" ->
     Request_Header req !! key = None).
Proof.
  cbn. do 3 (split; [reflexivity|]).
  split; [|split].
  - rewrite lookup_insert_ne by discriminate. apply lookup_insert_eq.
  - apply lookup_insert_eq.
  - intros key H1 H2.
    rewrite !lookup_insert_ne by congruence. apply lookup_empty.
Qed.

Lemma sendToRemoteWrite_run env data url w :
  sendToRemoteWrite env data url w =
    match env_url_error env url with
    | Some e =>
        (w, Returned
              (None, Some (Errorf "failed to create HTTP request: %w" e)))
    | None =>
        (emit (HTTPDo (delivery_request url data)) (count_http_call w),
         Returned
           match env_Do env (http_calls w) (delivery_request url data) with
           | inl e =>
               (None, Some (Errorf "failed to send HTTP request: %w" e))
           | inr resp => (Some resp, None)
           end)
    end.
Proof.
  unfold sendToRemoteWrite, http_NewRequest.
  destruct (env_url_error env url); [reflexivity|].
  go_unfold. unfold client_Do. fold (delivery_request url data).
  destruct (env_Do env (http_calls w) (delivery_request url data));
    reflexivity.
Qed.

(** Lines 113-119, after a response has come back. *)
Lemma iteration_response env url w mfs w1 wr data w2 resp :
  env_Gather env (gathers w) = inr mfs ->
  createSnappyWithMetricFamily env mfs (count_gather w) =
    (w1, Returned (wr, None)) ->
  env_Marshal env wr = inr data ->
  sendToRemoteWrite env (env_snappy_Encode env data) url w1 =
    (w2, Returned (Some resp, None)) ->
  iteration env url w =
    if Response_StatusCode resp =? StatusOK then
      (emit (Logged "Data written successfully to Prometheus remote storage"
               []) (emit (BodyClose resp) w2),
       Returned tt)
    else
      (emit (Logged "Unexpected response status: %s"
               [AString (Response_Status resp)]) (emit (BodyClose resp) w2),
       Exited 1).
Proof.
  intros Hg Hc Hm Hs. unfold iteration.
  rewrite (bind_Returned _ _ w (count_gather w)
             (env_Gather env (gathers w))) by reflexivity.
  rewrite Hg, (bind_Returned _ _ _ _ _ Hc), Hm.
  rewrite (bind_Returned _ _ _ _ _ Hs).
  destruct (Response_StatusCode resp =? StatusOK); reflexivity.
Qed.

Lemma added_refl w : added w w [].
Proof. unfold added. now rewrite app_nil_r. Qed.

Lemma added_emit w ev : added w (emit ev w) [ev].
Proof. reflexivity. Qed.

Lemma added_trans w1 w2 w3 new1 new2 :
  added w1 w2 new1 -> added w2 w3 new2 -> added w1 w3 (new1 ++ new2).
Proof. unfold added. intros H1 H2. now rewrite H2, H1, app_assoc. Qed.

(** Whatever way one iteration ends, its events are pipeline events. *)
Lemma iteration_events env url w w' o :
  iteration env url w = (w', o) ->
  exists new, added w w' new /\ Forall (pipeline_event env url) new.
Proof.
  unfold iteration.
  rewrite (bind_Returned _ _ w (count_gather w)
             (env_Gather env (gathers w))) by reflexivity.
  destruct (env_Gather env (gathers w)) as [e|mfs] eqn:Hg.
  { intros [= <- <-]. eexists. split; [reflexivity|].
    repeat constructor. discriminate. }
  destruct (createSnappyWithMetricFamily env mfs (count_gather w))
    as [w1 o1] eqn:Hc.
  destruct (createSnappy_inv _ _ _ _ _ Hc)
    as [(tss & -> & Hw1) | [(t & _ & -> & Hw1) | (reason & -> & Hw1)]].
  2: { rewrite (bind_Exited _ _ _ _ _ Hc). intros [= <- <-].
       exists [unknown_type_line t]. split; [solve_added|].
       repeat constructor. discriminate. }
  2: { rewrite (bind_Panicked _ _ _ _ _ Hc). intros [= <- <-].
       exists []. split; [solve_added | constructor]. }
  rewrite (bind_Returned _ _ _ _ _ Hc).
  assert (added w w1 [writing_line (length tss)
                        (capture_ms env (count_gather w))]) as Hadd
    by solve_added.
  destruct (env_Marshal env {| WriteRequest_Timeseries := tss |})
    as [e|data] eqn:Hm.
  { intros [= <- <-]. eexists. split.
    - eapply added_trans; [exact Hadd | apply added_emit].
    - repeat constructor. discriminate. }
  go_unfold. rewrite sendToRemoteWrite_run.
  destruct (env_url_error env url) as [e|].
  { intros [= <- <-]. eexists. split.
    - eapply added_trans; [exact Hadd | apply added_emit].
    - repeat constructor. discriminate. }
  set (req := delivery_request url (env_snappy_Encode env data)).
  assert (pipeline_event env url (HTTPDo req)) as Hreq.
  { simpl. exists (gathers w), mfs, (count_gather w), w1.
    exists {| WriteRequest_Timeseries := tss |}, data.
    repeat split; assumption. }
  assert (added w (emit (HTTPDo req) (count_http_call w1))
            [writing_line (length tss) (capture_ms env (count_gather w));
             HTTPDo req]) as Hadd2.
  { apply (added_trans _ _ _ _ [HTTPDo req] Hadd). reflexivity. }
  destruct (env_Do env (http_calls w1) req) as [e|resp].
  { intros [= <- <-]. eexists. split.
    - eapply added_trans; [exact Hadd2 | apply added_emit].
    - repeat constructor; [exact Hreq | discriminate]. }
  destruct (negb (Response_StatusCode resp =? StatusOK)).
  - unfold Body_Close, log_Fatalf. intros [= <- <-]. eexists. split.
    + eapply added_trans; [exact Hadd2|].
      eapply added_trans; apply added_emit.
    + repeat constructor; [exact Hreq | discriminate].
  - unfold Body_Close, log_Println. intros [= <- <-]. eexists. split.
    + eapply added_trans; [exact Hadd2|].
      eapply added_trans; apply added_emit.
    + repeat constructor; [exact Hreq | discriminate].
Qed.

Lemma tickLoop_events env url ticks :
  forall w w' o,
    tickLoop env url ticks w = (w', o) ->
    exists new, added w w' new /\ Forall (pipeline_event env url) new.
Proof.
  induction ticks as [|n IH]; intros w w' o; simpl.
  - intros [= <- <-]. exists []. split; [apply added_refl | constructor].
  - go_unfold. destruct (iteration env url w) as [w1 o1] eqn:Hit.
    destruct (iteration_events _ _ _ _ _ Hit) as (new1 & Hadd1 & Hall1).
    destruct o1 as [[] | code | reason].
    + intros Hrest.
      destruct (IH _ _ _ Hrest) as (new2 & Hadd2 & Hall2).
      exists (new1 ++ new2). split.
      * eapply added_trans; eassumption.
      * apply Forall_app; auto.
    + intros [= <- <-]. eauto.
    + intros [= <- <-]. eauto.
Qed.

Lemma RemoteWrite_events env url frequency ticks w w' o :
  RemoteWrite env url frequency ticks w = (w', o) ->
  exists new, added w w' new /\ Forall (pipeline_event env url) new.
Proof.
  unfold RemoteWrite. destruct (frequency <=? 0).
  - intros [= <- <-]. exists []. split; [apply added_refl | constructor].
  - apply tickLoop_events.
Qed.

(** An exit ends the loop: later ticks add nothing. *)
Lemma tickLoop_Exited env url w w' code n :
  iteration env url w = (w', Exited code) ->
  tickLoop env url (S n) w = (w', Exited code).
Proof. intros H. simpl. now apply bind_Exited. Qed.

(** A family with a metric and a type outside the dispatch table keeps
    the pipeline from the network whatever else the snapshot holds: the
    iteration does not return and makes no HTTP call. *)
Lemma unknown_family_not_convertible mfs :
  existsb unknown_family mfs = true -> convertible mfs = false.
Proof.
  induction mfs as [|mf mfs IH]; [discriminate|].
  cbn [existsb]. intros H. apply orb_true_iff in H as [Hu | Hrest].
  - destruct mf as [mf|]; [|discriminate Hu]. simpl in Hu.
    apply andb_true_iff in Hu as [Hne Hnr].
    apply negb_true_iff in Hne. apply negb_true_iff in Hnr.
    unfold convertible. cbn [forallb]. simpl.
    rewrite Hne, Hnr, andb_false_r. reflexivity.
  - unfold convertible in *. cbn [forallb]. rewrite (IH Hrest).
    apply andb_false_r.
Qed.

Lemma unknown_family_never_sent env url w mfs :
  env_Gather env (gathers w) = inr mfs ->
  existsb unknown_family mfs = true ->
  exists w' o,
    iteration env url w = (w', o) /\ o <> Returned tt /\
    http_calls w' = http_calls w.
Proof.
  intros Hg Hex. unfold iteration.
  rewrite (bind_Returned _ _ w (count_gather w)
             (env_Gather env (gathers w))) by reflexivity.
  rewrite Hg.
  destruct (createSnappyWithMetricFamily env mfs (count_gather w))
    as [w1 o1] eqn:Hc.
  destruct (createSnappy_inv _ _ _ _ _ Hc)
    as [(tss & -> & _) | [(t & _ & -> & ->) | (reason & -> & ->)]].
  - apply createSnappy_Returned_convertible in Hc.
    rewrite (unknown_family_not_convertible mfs Hex) in Hc. discriminate Hc.
  - rewrite (bind_Exited _ _ _ _ _ Hc). eexists _, _.
    split; [reflexivity|]. split; [discriminate | reflexivity].
  - rewrite (bind_Panicked _ _ _ _ _ Hc). eexists _, _.
    split; [reflexivity|]. split; [discriminate | reflexivity].
Qed.

(** ** The scenarios of the spec, run *)

(** Scenario A: one Gauge family "up" with value 1.0 and no extra label
    gives one series with the name label alone and one sample. *)
Example scenario_A_series :
  createSnappyWithMetricFamily (endpoint_env scenario_A "200 OK" 200)
    scenario_A world0 =
    (emit (writing_line 1 1700000000123) (count_clock_read world0),
     Returned
       ({| WriteRequest_Timeseries :=
             [ {| TimeSeries_Labels :=
                    [ {| Label_Name := "__name__"; Label_Value := "up" |} ];
                  TimeSeries_Samples :=
                    [ {| Sample_Value := 1%float;
                         Sample_Timestamp := 1700000000123 |} ] |} ] |},
        None)).
Proof. reflexivity. Qed.

(** Scenario B: a family of an unrecognized type with a metric ends the
    run before any HTTP call. *)
Example scenario_B_run :
  RemoteWrite (endpoint_env unknown_snapshot "200 OK" 200) endpoint_url 5 3
    world0 =
    ({| clock_reads := 1; gathers := 1; http_calls := 0;
        trace := [ unknown_type_line MetricType_GAUGE_HISTOGRAM ] |},
     Exited 1).
Proof. reflexivity. Qed.

(** Scenario C: the endpoint answers 503; one request, the body closed,
    the status logged, the process gone. *)
Example scenario_C_run :
  RemoteWrite (endpoint_env scenario_A "503 Service Unavailable" 503)
    endpoint_url 5 3 world0 =
    ({| clock_reads := 1; gathers := 1; http_calls := 1;
        trace :=
          [ writing_line 1 1700000000123;
            HTTPDo (delivery_request endpoint_url [Byte.xff; Byte.x0a]);
            BodyClose {| Response_Status := "503 Service Unavailable";
                         Response_StatusCode := 503 |};
            Logged "Unexpected response status: %s"
              [AString "503 Service Unavailable"] ] |},
     Exited 1).
Proof. reflexivity. Qed.

(** A nil metric pointer panics before the type is looked at. *)
Example nil_metric_panics :
  createSnappyWithMetricFamily (endpoint_env [] "200 OK" 200)
    [ family "native" MetricType_GAUGE_HISTOGRAM [ None ] ] world0 =
    (count_clock_read world0, Panicked nil_dereference).
Proof. reflexivity. Qed.

(** A non-positive interval panics in [time.NewTicker]. *)
Example zero_frequency_panics :
  RemoteWrite (endpoint_env scenario_A "200 OK" 200) endpoint_url 0 3
    world0 = (world0, Panicked "non-positive interval for NewTicker").
Proof. reflexivity. Qed.

(** ** The properties of the series builder *)

Lemma metric_pairs_length mfs :
  convertible mfs = true -> length (metric_pairs mfs) = total_metrics mfs.
Proof.
  unfold metric_pairs, total_metrics.
  induction mfs as [|mf mfs IH]; intros Hc; [reflexivity|].
  simpl in Hc. apply andb_true_iff in Hc as [Hmf Hmfs].
  destruct mf as [mf|]; [|discriminate Hmf].
  simpl in Hmf. apply andb_true_iff in Hmf as [Hset _].
  cbn. rewrite length_app, length_map, (IH Hmfs). f_equal.
  clear -Hset. induction (MetricFamily_Metric mf) as [|m ms IHms];
    [reflexivity|].
  simpl in Hset. apply andb_true_iff in Hset as [Hm Hms].
  destruct m; [|discriminate Hm]. cbn. now rewrite (IHms Hms).
Qed.

(** C1: on every snapshot the conversion gets through, with N metric
    entries summed over its families, [createSnappyWithMetricFamily]
    returns a write request of exactly N series, and the k-th series is
    the one owed to the k-th metric, families taken in snapshot order and
    metrics in family order. *)
Theorem one_series_per_metric env mfs w :
  convertible mfs = true ->
  exists w' tss,
    createSnappyWithMetricFamily env mfs w =
      (w', Returned ({| WriteRequest_Timeseries := tss |}, None)) /\
    length tss = total_metrics mfs /\
    Forall2 (pair_series (capture_ms env w)) (metric_pairs mfs) tss.
Proof.
  intros Hc.
  destruct (createSnappy_convertible env mfs w Hc) as (tss & Hrun & Hall).
  eexists _, tss. split; [exact Hrun|]. split; [|exact Hall].
  rewrite <- (metric_pairs_length mfs Hc).
  symmetry. eapply Forall2_length, Hall.
Qed.

Lemma one_series_per_metric_witness :
  exists w' tss,
    createSnappyWithMetricFamily (endpoint_env [] "200 OK" 200)
      mixed_snapshot world0 =
      (w', Returned ({| WriteRequest_Timeseries := tss |}, None)) /\
    length tss = 7%nat /\
    Forall2 (pair_series 1700000000123) (metric_pairs mixed_snapshot) tss.
Proof.
  exact (one_series_per_metric (endpoint_env [] "200 OK" 200)
           mixed_snapshot world0 eq_refl).
Defined.

(** C2: the sample value of the series of a metric whose family type is
    in the dispatch table is the scalar of the fixed rule: the counter
    value for Counter, the gauge value for Gauge, the untyped value for
    Untyped, the sample sum for Summary and for Histogram. *)
Theorem sample_value_by_dispatch env mfs w :
  convertible mfs = true ->
  exists w' tss,
    createSnappyWithMetricFamily env mfs w =
      (w', Returned ({| WriteRequest_Timeseries := tss |}, None)) /\
    Forall2
      (fun p ts =>
         forall t,
           MetricFamily_Type (fst p) = Some t -> t ∈ dispatch_table ->
           exists s,
             TimeSeries_Samples ts = [s] /\
             dispatch_rule t (Some (snd p)) (Sample_Value s))
      (metric_pairs mfs) tss.
Proof.
  intros Hc.
  destruct (createSnappy_convertible env mfs w Hc) as (tss & Hrun & Hall).
  eexists _, tss. split; [exact Hrun|].
  eapply Forall2_impl; [exact Hall|].
  intros [mf m] ts (t & v & Ht & _ & Hrule & ->) t' Ht' _.
  simpl in *. rewrite Ht in Ht'. injection Ht' as <-.
  eexists. split; [reflexivity | exact Hrule].
Qed.

Lemma sample_value_by_dispatch_witness :
  exists w' tss,
    createSnappyWithMetricFamily (endpoint_env [] "200 OK" 200)
      mixed_snapshot world0 =
      (w', Returned ({| WriteRequest_Timeseries := tss |}, None)) /\
    Forall2
      (fun p ts =>
         forall t,
           MetricFamily_Type (fst p) = Some t -> t ∈ dispatch_table ->
           exists s,
             TimeSeries_Samples ts = [s] /\
             dispatch_rule t (Some (snd p)) (Sample_Value s))
      (metric_pairs mixed_snapshot) tss.
Proof.
  exact (sample_value_by_dispatch (endpoint_env [] "200 OK" 200)
           mixed_snapshot world0 eq_refl).
Defined.

(** C3: every series the conversion produces has a non-empty label list
    whose first label is the synthetic [__name__] label with the owning
    family's name as value, and whose remaining labels are the metric's
    own label pairs in their snapshot order. *)
Theorem name_label_first env mfs w :
  convertible mfs = true ->
  exists w' tss,
    createSnappyWithMetricFamily env mfs w =
      (w', Returned ({| WriteRequest_Timeseries := tss |}, None)) /\
    Forall2
      (fun p ts =>
         TimeSeries_Labels ts <> [] /\
         TimeSeries_Labels ts !! 0%nat =
           Some {| Label_Name := "__name__";
                   Label_Value := MetricFamily_GetName (Some (fst p)) |} /\
         drop 1 (TimeSeries_Labels ts) =
           map (fun lp => {| Label_Name := LabelPair_GetName lp;
                             Label_Value := LabelPair_GetValue lp |})
             (Metric_Label (snd p)))
      (metric_pairs mfs) tss.
Proof.
  intros Hc.
  destruct (createSnappy_convertible env mfs w Hc) as (tss & Hrun & Hall).
  eexists _, tss. split; [exact Hrun|].
  eapply Forall2_impl; [exact Hall|].
  intros [mf m] ts (t & v & _ & _ & _ & ->). simpl.
  split; [discriminate|]. split; reflexivity.
Qed.

Lemma name_label_first_witness :
  exists w' tss,
    createSnappyWithMetricFamily (endpoint_env [] "200 OK" 200)
      mixed_snapshot world0 =
      (w', Returned ({| WriteRequest_Timeseries := tss |}, None)) /\
    Forall2
      (fun p ts =>
         TimeSeries_Labels ts <> [] /\
         TimeSeries_Labels ts !! 0%nat =
           Some {| Label_Name := "__name__";
                   Label_Value := MetricFamily_GetName (Some (fst p)) |} /\
         drop 1 (TimeSeries_Labels ts) =
           map (fun lp => {| Label_Name := LabelPair_GetName lp;
                             Label_Value := LabelPair_GetValue lp |})
             (Metric_Label (snd p)))
      (metric_pairs mixed_snapshot) tss.
Proof.
  exact (name_label_first (endpoint_env [] "200 OK" 200)
           mixed_snapshot world0 eq_refl).
Defined.

(** C4: every series of a write request carries exactly one sample, and
    all samples carry the same timestamp: the millisecond of the one
    clock reading the conversion takes, which is its first effect. *)
Theorem one_sample_one_timestamp env mfs w :
  convertible mfs = true ->
  exists w' tss,
    createSnappyWithMetricFamily env mfs w =
      (w', Returned ({| WriteRequest_Timeseries := tss |}, None)) /\
    clock_reads w' = S (clock_reads w) /\
    Forall
      (fun ts =>
         exists s,
           TimeSeries_Samples ts = [s] /\
           Sample_Timestamp s =
             Z.quot (env_UnixNano env (clock_reads w)) 1000000)
      tss.
Proof.
  intros Hc.
  destruct (createSnappy_convertible env mfs w Hc) as (tss & Hrun & Hall).
  eexists _, tss. split; [exact Hrun|]. split; [reflexivity|].
  clear Hrun. induction Hall as [|[mf m] ts ps tss Hts _ IH]; constructor.
  - destruct Hts as (t & v & _ & _ & _ & ->). eexists. split; reflexivity.
  - exact IH.
Qed.

Lemma one_sample_one_timestamp_witness :
  exists w' tss,
    createSnappyWithMetricFamily (endpoint_env [] "200 OK" 200)
      mixed_snapshot world0 =
      (w', Returned ({| WriteRequest_Timeseries := tss |}, None)) /\
    clock_reads w' = 1%nat /\
    Forall
      (fun ts =>
         exists s,
           TimeSeries_Samples ts = [s] /\
           Sample_Timestamp s = 1700000000123)
      tss.
Proof.
  exact (one_sample_one_timestamp (endpoint_env [] "200 OK" 200)
           mixed_snapshot world0 eq_refl).
Defined.

(** C10: a metric whose typed payload is nil although its family has a
    type of the dispatch table does not make the conversion fail: its
    series has one sample, of value 0.0. *)
Theorem absent_payload_is_zero env mfs w :
  convertible mfs = true ->
  exists w' tss,
    createSnappyWithMetricFamily env mfs w =
      (w', Returned ({| WriteRequest_Timeseries := tss |}, None)) /\
    Forall2
      (fun p ts =>
         forall t,
           MetricFamily_Type (fst p) = Some t ->
           payload_absent t (snd p) ->
           exists s, TimeSeries_Samples ts = [s] /\ Sample_Value s = 0%float)
      (metric_pairs mfs) tss.
Proof.
  intros Hc.
  destruct (createSnappy_convertible env mfs w Hc) as (tss & Hrun & Hall).
  eexists _, tss. split; [exact Hrun|].
  eapply Forall2_impl; [exact Hall|].
  intros [mf m] ts (t & v & Ht & _ & Hrule & ->) t' Ht' Habs.
  simpl in *. rewrite Ht in Ht'. injection Ht' as <-.
  eexists. split; [reflexivity|]. simpl.
  destruct Hrule as (Hc1 & Hc2 & Hc3 & Hc4 & Hc5).
  destruct Habs as [[E A] | [[E A] | [[E A] | [[E A] | [E A]]]]].
  - rewrite (Hc1 E). simpl. now rewrite A.
  - rewrite (Hc2 E). simpl. now rewrite A.
  - rewrite (Hc3 E). simpl. now rewrite A.
  - rewrite (Hc4 E). simpl. now rewrite A.
  - rewrite (Hc5 E). simpl. now rewrite A.
Qed.

Lemma absent_payload_is_zero_witness :
  exists w' tss,
    createSnappyWithMetricFamily (endpoint_env [] "200 OK" 200)
      [ family "runs_total" MetricType_COUNTER [ Some (no_payload []) ] ]
      world0 =
      (w', Returned ({| WriteRequest_Timeseries := tss |}, None)) /\
    Forall2
      (fun p ts =>
         forall t,
           MetricFamily_Type (fst p) = Some t ->
           payload_absent t (snd p) ->
           exists s, TimeSeries_Samples ts = [s] /\ Sample_Value s = 0%float)
      (metric_pairs
         [ family "runs_total" MetricType_COUNTER [ Some (no_payload []) ] ])
      tss.
Proof.
  exact (absent_payload_is_zero (endpoint_env [] "200 OK" 200)
           [ family "runs_total" MetricType_COUNTER [ Some (no_payload []) ] ]
           world0 eq_refl).
Defined.

(** ** The properties of the pipeline *)

(** C5, as the code has it: when the snapshot has no nil family, metric or
    type pointer and one of its families has at least one metric and a
    type outside the dispatch table, the conversion ends in [log.Fatalf]
    on such a type and returns no write request; the iteration logs that
    one line, makes no HTTP call, and the process exits with status 1, so
    no later tick runs. *)
Theorem unknown_type_is_fatal env url w mfs :
  env_Gather env (gathers w) = inr mfs ->
  no_nil mfs = true ->
  existsb unknown_family mfs = true ->
  exists mf t w',
    Some mf ∈ mfs /\ MetricFamily_Metric mf <> [] /\
    MetricFamily_Type mf = Some t /\ recognized t = false /\
    createSnappyWithMetricFamily env mfs (count_gather w) = (w', Exited 1) /\
    iteration env url w = (w', Exited 1) /\
    added w w' [Logged "Unknown metric type: %v" [AMetricType t]] /\
    http_calls w' = http_calls w /\
    forall n, tickLoop env url (S n) w = (w', Exited 1).
Proof.
  intros Hg Hnn Hex.
  set (w0 := count_gather w).
  destruct (families_loop_unknown (capture_ms env w0) mfs []
              (count_clock_read w0) Hnn Hex)
    as (mf & t & Hin & Ht & Hr & Hne & Hloop).
  assert (createSnappyWithMetricFamily env mfs w0 =
            (emit (unknown_type_line t) (count_clock_read w0), Exited 1))
    as Hc.
  { unfold createSnappyWithMetricFamily.
    rewrite (bind_Returned _ _ w0 (count_clock_read w0)
               (env_UnixNano env (clock_reads w0))) by reflexivity.
    apply bind_Exited. exact Hloop. }
  assert (iteration env url w =
            (emit (unknown_type_line t) (count_clock_read w0), Exited 1))
    as Hit.
  { unfold iteration.
    rewrite (bind_Returned _ _ w w0 (env_Gather env (gathers w)))
      by reflexivity.
    rewrite Hg. apply bind_Exited. exact Hc. }
  exists mf, t, (emit (unknown_type_line t) (count_clock_read w0)).
  repeat (split; [assumption|]).
  split; [reflexivity|]. split; [reflexivity|].
  intros n. apply tickLoop_Exited, Hit.
Qed.

Lemma unknown_type_is_fatal_witness :
  exists mf t w',
    Some mf ∈ unknown_snapshot /\ MetricFamily_Metric mf <> [] /\
    MetricFamily_Type mf = Some t /\ recognized t = false /\
    createSnappyWithMetricFamily (endpoint_env unknown_snapshot "200 OK" 200)
      unknown_snapshot (count_gather world0) = (w', Exited 1) /\
    iteration (endpoint_env unknown_snapshot "200 OK" 200) endpoint_url
      world0 = (w', Exited 1) /\
    added world0 w' [Logged "Unknown metric type: %v" [AMetricType t]] /\
    http_calls w' = http_calls world0 /\
    forall n,
      tickLoop (endpoint_env unknown_snapshot "200 OK" 200) endpoint_url
        (S n) world0 = (w', Exited 1).
Proof.
  exact (unknown_type_is_fatal (endpoint_env unknown_snapshot "200 OK" 200)
           endpoint_url world0 unknown_snapshot eq_refl eq_refl eq_refl).
Defined.

(** C5, as stated, fails: a family that declares a type outside the
    dispatch table and has no metric is never looked at by the switch; the
    iteration returns and the envelope is sent. *)
Lemma unknown_type_without_metric_is_sent :
  env_Gather (endpoint_env empty_unknown_snapshot "200 OK" 200)
    (gathers world0) = inr empty_unknown_snapshot /\
  (exists mf t,
     Some mf ∈ empty_unknown_snapshot /\
     MetricFamily_Type mf = Some t /\ recognized t = false) /\
  exists w' req,
    iteration (endpoint_env empty_unknown_snapshot "200 OK" 200)
      endpoint_url world0 = (w', Returned tt) /\
    HTTPDo req ∈ trace w'.
Proof.
  split; [reflexivity|]. split.
  - eexists _, MetricType_GAUGE_HISTOGRAM.
    split; [apply elem_of_cons; left; reflexivity|].
    split; reflexivity.
  - eexists _, _. split; [vm_compute; reflexivity|].
    apply elem_of_cons. right. apply elem_of_cons. left. reflexivity.
Qed.

(** C6: once a response has come back, the iteration succeeds exactly
    when its status code is 200.  On any other status the process exits
    with status 1 and no later tick runs; on both paths no further HTTP
    call is made and the body is closed, before the line that reports the
    outcome is logged. *)
Theorem delivery_succeeds_iff_status_OK env url w mfs w1 wr data w2 resp :
  env_Gather env (gathers w) = inr mfs ->
  createSnappyWithMetricFamily env mfs (count_gather w) =
    (w1, Returned (wr, None)) ->
  env_Marshal env wr = inr data ->
  sendToRemoteWrite env (env_snappy_Encode env data) url w1 =
    (w2, Returned (Some resp, None)) ->
  exists w3 o,
    iteration env url w = (w3, o) /\
    (o = Returned tt <-> Response_StatusCode resp = 200) /\
    (Response_StatusCode resp <> 200 ->
       o = Exited 1 /\ forall n, tickLoop env url (S n) w = (w3, Exited 1)) /\
    http_calls w3 = http_calls w2 /\
    added w2 w3
      [ BodyClose resp;
        if Response_StatusCode resp =? 200 then
          Logged "Data written successfully to Prometheus remote storage" []
        else
          Logged "Unexpected response status: %s"
            [AString (Response_Status resp)] ].
Proof.
  intros Hg Hc Hm Hs.
  pose proof (iteration_response env url w mfs w1 wr data w2 resp
                Hg Hc Hm Hs) as Hit.
  unfold StatusOK in Hit.
  destruct (Z.eqb_spec (Response_StatusCode resp) 200) as [Heq | Hne].
  - eexists _, _. split; [exact Hit|].
    split; [tauto|]. split; [tauto|]. split; [reflexivity|].
    unfold added. simpl. now rewrite <- app_assoc.
  - eexists _, _. split; [exact Hit|].
    split; [split; [discriminate | tauto]|].
    split; [|split; [reflexivity|];
              unfold added; simpl; now rewrite <- app_assoc].
    intros _. split; [reflexivity|].
    intros n. apply tickLoop_Exited, Hit.
Qed.

Lemma delivery_succeeds_iff_status_OK_witness :
  exists w3 o,
    iteration (endpoint_env scenario_A "503 Service Unavailable" 503)
      endpoint_url world0 = (w3, o) /\
    (o = Returned tt <-> 503 = 200) /\
    (503 <> 200 ->
       o = Exited 1 /\
       forall n,
         tickLoop (endpoint_env scenario_A "503 Service Unavailable" 503)
           endpoint_url (S n) world0 = (w3, Exited 1)) /\
    http_calls w3 = 1%nat /\
    trace w3 =
      [ writing_line 1 1700000000123;
        HTTPDo (delivery_request endpoint_url [Byte.xff; Byte.x0a]);
        BodyClose {| Response_Status := "503 Service Unavailable";
                     Response_StatusCode := 503 |};
        Logged "Unexpected response status: %s"
          [AString "503 Service Unavailable"] ].
Proof.
  exact (delivery_succeeds_iff_status_OK
           (endpoint_env scenario_A "503 Service Unavailable" 503)
           endpoint_url world0 scenario_A
           (emit (writing_line 1 1700000000123)
              (count_clock_read (count_gather world0)))
           _ [Byte.x0a]
           (emit (HTTPDo (delivery_request endpoint_url [Byte.xff; Byte.x0a]))
              (count_http_call
                 (emit (writing_line 1 1700000000123)
                    (count_clock_read (count_gather world0)))))
           {| Response_Status := "503 Service Unavailable";
              Response_StatusCode := 503 |}
           eq_refl eq_refl eq_refl eq_refl).
Defined.

(** C7: every HTTP request the process makes is a POST to the configured
    URL whose header has exactly the two entries [Content-Encoding:
    snappy] and [Content-Type: application/x-protobuf], and whose body is
    the compressed marshalling of the write request the conversion built
    from a gathered snapshot. *)
Theorem requests_are_snappy_protobuf_posts env url frequency ticks w w' o :
  RemoteWrite env url frequency ticks w = (w', o) ->
  exists new,
    added w w' new /\
    forall req,
      HTTPDo req ∈ new ->
      Request_Method req = "POST" /\
      Request_URL req = url /\
      Request_Header req !! "Content-Encoding" = Some ["snappy"] /\
      Request_Header req !! "Content-Type" = Some ["application/x-protobuf"] /\
      (forall key, key <> "Content-Encoding" -> key <> "Content-Type" ->
         Request_Header req !! key = None) /\
      exists n mfs w0 w1 wr data,
        env_Gather env n = inr mfs /\
        createSnappyWithMetricFamily env mfs w0 = (w1, Returned (wr, None)) /\
        env_Marshal env wr = inr data /\
        Request_Body req = env_snappy_Encode env data.
Proof.
  intros Hrun.
  destruct (RemoteWrite_events _ _ _ _ _ _ _ Hrun) as (new & Hadd & Hall).
  exists new. split; [exact Hadd|].
  intros req Hin.
  rewrite Forall_forall in Hall. specialize (Hall _ Hin).
  destruct Hall as (n & mfs & w0 & w1 & wr & data & Hg & Hc & Hm & ->).
  destruct (delivery_request_fields url (env_snappy_Encode env data))
    as (H1 & H2 & H3 & H4 & H5 & H6).
  repeat (split; [assumption|]).
  exists n, mfs, w0, w1, wr, data. auto.
Qed.

Lemma requests_are_snappy_protobuf_posts_witness :
  exists new,
    added world0
      (fst (RemoteWrite (endpoint_env mixed_snapshot "200 OK" 200)
              endpoint_url 5 2 world0)) new /\
    forall req,
      HTTPDo req ∈ new ->
      Request_Method req = "POST" /\
      Request_URL req = endpoint_url /\
      Request_Header req !! "Content-Encoding" = Some ["snappy"] /\
      Request_Header req !! "Content-Type" = Some ["application/x-protobuf"] /\
      (forall key, key <> "Content-Encoding" -> key <> "Content-Type" ->
         Request_Header req !! key = None) /\
      exists n mfs w0 w1 wr data,
        env_Gather (endpoint_env mixed_snapshot "200 OK" 200) n = inr mfs /\
        createSnappyWithMetricFamily (endpoint_env mixed_snapshot "200 OK" 200)
          mfs w0 = (w1, Returned (wr, None)) /\
        toy_Marshal wr = inr data /\
        Request_Body req = toy_Encode data.
Proof.
  exact (requests_are_snappy_protobuf_posts
           (endpoint_env mixed_snapshot "200 OK" 200) endpoint_url 5 2 world0
           _ _ (surjective_pairing _)).
Defined.

(** C8: on a snapshot without metrics (no family, or families that all
    have zero metrics) the conversion returns a write request with no
    series, and the iteration does not skip the tick: it marshals and
    compresses that envelope and posts it. *)
Theorem empty_snapshot_is_still_sent env url w mfs data :
  Forall (fun mf => exists mf0, mf = Some mf0 /\ MetricFamily_Metric mf0 = [])
    mfs ->
  env_Gather env (gathers w) = inr mfs ->
  env_Marshal env {| WriteRequest_Timeseries := [] |} = inr data ->
  env_url_error env url = None ->
  (forall w0, exists w1,
     createSnappyWithMetricFamily env mfs w0 =
       (w1, Returned ({| WriteRequest_Timeseries := [] |}, None))) /\
  exists w' o req rest,
    iteration env url w = (w', o) /\
    added w w'
      (Stdout "Writing %v metrics at time: %v\n"
         [AInt 0; AInt (capture_ms env (count_gather w))]
       :: HTTPDo req :: rest) /\
    Request_Method req = "POST" /\
    Request_URL req = url /\
    Request_Body req = env_snappy_Encode env data.
Proof.
  intros Hempty Hg Hm Hurl.
  assert (convertible mfs = true /\ metric_pairs mfs = []) as [Hc Hnil].
  { clear -Hempty. unfold metric_pairs.
    induction Hempty as [|mf mfs (mf0 & -> & Hms) _ [IH1 IH2]];
      [split; reflexivity|].
    split.
    - simpl. rewrite Hms. exact IH1.
    - cbn. rewrite Hms. exact IH2. }
  assert (forall w0,
            createSnappyWithMetricFamily env mfs w0 =
              (emit (writing_line 0 (capture_ms env w0)) (count_clock_read w0),
               Returned ({| WriteRequest_Timeseries := [] |}, None)))
    as Hrun.
  { intros w0.
    destruct (createSnappy_convertible env mfs w0 Hc) as (tss & Hrun & Hall).
    rewrite Hnil in Hall. apply Forall2_nil_inv_l in Hall. now subst tss. }
  split; [intros w0; eexists; apply Hrun|].
  set (req := delivery_request url (env_snappy_Encode env data)).
  assert (exists w' o rest,
            iteration env url w = (w', o) /\
            added w w'
              (writing_line 0 (capture_ms env (count_gather w))
               :: HTTPDo req :: rest)) as (w' & o & rest & Hit & Hadd).
  { unfold iteration.
    rewrite (bind_Returned _ _ w (count_gather w)
               (env_Gather env (gathers w))) by reflexivity.
    rewrite Hg, (bind_Returned _ _ _ _ _ (Hrun (count_gather w))), Hm.
    go_unfold. rewrite sendToRemoteWrite_run, Hurl. fold req.
    destruct (env_Do env _ req) as [e|resp].
    - eexists _, _, _. split; [reflexivity|].
      unfold added. simpl. rewrite <- !app_assoc. reflexivity.
    - destruct (negb (Response_StatusCode resp =? StatusOK)).
      + eexists _, _, _. split; [reflexivity|].
        unfold added. simpl. rewrite <- !app_assoc. reflexivity.
      + eexists _, _, _. split; [reflexivity|].
        unfold added. simpl. rewrite <- !app_assoc. reflexivity. }
  exists w', o, req, rest. split; [exact Hit|]. split; [exact Hadd|].
  destruct (delivery_request_fields url (env_snappy_Encode env data))
    as (H1 & H2 & H3 & _).
  auto.
Qed.

Lemma empty_snapshot_is_still_sent_witness :
  (forall w0, exists w1,
     createSnappyWithMetricFamily
       (endpoint_env [ family "empty" MetricType_GAUGE [] ] "200 OK" 200)
       [ family "empty" MetricType_GAUGE [] ] w0 =
       (w1, Returned ({| WriteRequest_Timeseries := [] |}, None))) /\
  exists w' o req rest,
    iteration
      (endpoint_env [ family "empty" MetricType_GAUGE [] ] "200 OK" 200)
      endpoint_url world0 = (w', o) /\
    added world0 w'
      (Stdout "Writing %v metrics at time: %v\n"
         [AInt 0; AInt 1700000000123]
       :: HTTPDo req :: rest) /\
    Request_Method req = "POST" /\
    Request_URL req = endpoint_url /\
    Request_Body req = [Byte.xff].
Proof.
  apply (empty_snapshot_is_still_sent
           (endpoint_env [ family "empty" MetricType_GAUGE [] ] "200 OK" 200)
           endpoint_url world0 [ family "empty" MetricType_GAUGE [] ] []).
  - repeat constructor. eexists. split; reflexivity.
  - reflexivity.
  - reflexivity.
  - reflexivity.
Defined.

(** C9: whenever [createSnappyWithMetricFamily] returns, its error result
    is nil, so [RemoteWrite] never takes the branch that logs a failed
    conversion. *)
Theorem createSnappy_error_is_nil env :
  (forall mfs w w' wr err,
     createSnappyWithMetricFamily env mfs w = (w', Returned (wr, err)) ->
     err = None) /\
  (forall url frequency ticks w w' o,
     RemoteWrite env url frequency ticks w = (w', o) ->
     exists new,
       added w w' new /\
       forall args,
         Logged "Failed to create snappy with metric family: %v" args ∉ new).
Proof.
  split.
  - intros mfs w w' wr err Hrun.
    destruct (createSnappy_inv _ _ _ _ _ Hrun)
      as [(tss & [= -> ->] & _) | [(t & _ & [=] & _) | (reason & [=] & _)]].
    reflexivity.
  - intros url frequency ticks w w' o Hrun.
    destruct (RemoteWrite_events _ _ _ _ _ _ _ Hrun) as (new & Hadd & Hall).
    exists new. split; [exact Hadd|].
    intros args Hin. rewrite Forall_forall in Hall.
    now apply (Hall _ Hin).
Qed.

Lemma createSnappy_error_is_nil_witness :
  (exists w' wr err,
     createSnappyWithMetricFamily (endpoint_env mixed_snapshot "200 OK" 200)
       mixed_snapshot world0 = (w', Returned (wr, err)) /\
     err = None) /\
  exists new,
    added world0
      (fst (RemoteWrite (endpoint_env mixed_snapshot "200 OK" 200)
              endpoint_url 5 3 world0)) new /\
    forall args,
      Logged "Failed to create snappy with metric family: %v" args ∉ new.
Proof.
  split.
  - eexists _, _, _. split; [vm_compute; reflexivity|].
    eapply (proj1 (createSnappy_error_is_nil
                     (endpoint_env mixed_snapshot "200 OK" 200))
              mixed_snapshot world0).
    vm_compute. reflexivity.
  - exact (proj2 (createSnappy_error_is_nil
                    (endpoint_env mixed_snapshot "200 OK" 200))
             endpoint_url 5 3%nat world0 _ _ (surjective_pairing _)).
Defined.

(** ** More on the series builder *)

Lemma forRange_app {A S} (body : A -> S -> Go S) xs ys acc w :
  forRange body (xs ++ ys) acc w =
    (acc' ← forRange body xs acc; forRange body ys acc') w.
Proof.
  revert acc w. induction xs as [|x xs IH]; intros acc w; [reflexivity|].
  simpl. go_unfold. destruct (body x acc w) as [w1 [acc1 | code | reason]];
    [apply IH | reflexivity | reflexivity].
Qed.

Lemma dispatch_rule_functional t m v1 v2 :
  recognized t = true ->
  dispatch_rule t m v1 -> dispatch_rule t m v2 -> v1 = v2.
Proof.
  intros Hr (A1 & A2 & A3 & A4 & A5) (B1 & B2 & B3 & B4 & B5).
  destruct (recognized_cases t Hr) as [E | [E | [E | [E | E]]]].
  - now rewrite (A1 E), (B1 E).
  - now rewrite (A2 E), (B2 E).
  - now rewrite (A3 E), (B3 E).
  - now rewrite (A4 E), (B4 E).
  - now rewrite (A5 E), (B5 E).
Qed.

Lemma pair_series_functional tStamp p x y :
  pair_series tStamp p x -> pair_series tStamp p y -> x = y.
Proof.
  destruct p as [mf m]. unfold pair_series, series_for. simpl.
  intros (t & v & Ht & Hr & Hv & ->) (t' & v' & Ht' & _ & Hv' & ->).
  rewrite Ht in Ht'. injection Ht' as <-.
  now rewrite (dispatch_rule_functional t (Some m) v v' Hr Hv Hv').
Qed.

Lemma createSnappy_Returned_series env mfs w w' wr err :
  createSnappyWithMetricFamily env mfs w = (w', Returned (wr, err)) ->
  convertible mfs = true /\ err = None /\
  w' = emit (writing_line (length (WriteRequest_Timeseries wr))
               (capture_ms env w)) (count_clock_read w) /\
  Forall2 (pair_series (capture_ms env w)) (metric_pairs mfs)
    (WriteRequest_Timeseries wr).
Proof.
  intros Hrun.
  pose proof (createSnappy_Returned_convertible _ _ _ _ _ Hrun) as Hc.
  destruct (createSnappy_convertible env mfs w Hc) as (tss & Hrun' & Hall).
  rewrite Hrun in Hrun'. injection Hrun' as -> -> ->. auto.
Qed.

Lemma convertible_app mfs1 mfs2 :
  convertible (mfs1 ++ mfs2) = convertible mfs1 && convertible mfs2.
Proof. apply forallb_app. Qed.

Lemma metric_pairs_app mfs1 mfs2 :
  metric_pairs (mfs1 ++ mfs2) = metric_pairs mfs1 ++ metric_pairs mfs2.
Proof.
  unfold metric_pairs. induction mfs1 as [|[mf|] mfs1 IH]; cbn.
  - reflexivity.
  - rewrite <- app_assoc. f_equal. exact IH.
  - exact IH.
Qed.

(** X1: the conversion returns on the convertible snapshots and on no
    other: a nil family or metric pointer, or a family with a metric and
    no type of the dispatch table, keeps it from returning. *)
Theorem conversion_returns_iff_convertible env mfs w :
  (exists w' r, createSnappyWithMetricFamily env mfs w = (w', Returned r))
  <-> convertible mfs = true.
Proof.
  split.
  - intros (w' & r & Hrun).
    eapply createSnappy_Returned_convertible, Hrun.
  - intros Hc.
    destruct (createSnappy_convertible env mfs w Hc) as (tss & Hrun & _).
    eauto.
Qed.

(** X2: whatever its outcome, the conversion reads the clock exactly
    once, gathers nothing and makes no HTTP call.  It prints its line
    exactly when it returns, with the number of series it returns and the
    capture timestamp; an exit has status 1 and leaves the one log line of
    an unknown type; a panic leaves no event. *)
Theorem conversion_effects env mfs w w' o :
  createSnappyWithMetricFamily env mfs w = (w', o) ->
  clock_reads w' = S (clock_reads w) /\
  gathers w' = gathers w /\
  http_calls w' = http_calls w /\
  exists new,
    added w w' new /\
    match o with
    | Returned (wr, err) =>
        err = None /\
        new =
          [ Stdout "Writing %v metrics at time: %v\n"
              [ AInt (Z.of_nat (length (WriteRequest_Timeseries wr)));
                AInt (Z.quot (env_UnixNano env (clock_reads w)) 1000000) ] ]
    | Exited code =>
        code = 1 /\
        exists t,
          recognized t = false /\
          new = [ Logged "Unknown metric type: %v" [AMetricType t] ]
    | Panicked _ => new = []
    end.
Proof.
  intros Hrun.
  destruct (createSnappy_inv _ _ _ _ _ Hrun)
    as [(tss & -> & ->) | [(t & Hr & -> & ->) | (reason & -> & ->)]].
  - repeat (split; [reflexivity|]). eexists. split; [reflexivity|].
    split; reflexivity.
  - repeat (split; [reflexivity|]). eexists. split; [reflexivity|].
    split; [reflexivity|]. exists t. auto.
  - repeat (split; [reflexivity|]). exists []. split; [|reflexivity].
    solve_added.
Qed.

Lemma conversion_effects_witness :
  clock_reads (emit (unknown_type_line 5) (count_clock_read world0)) = 1%nat /\
  gathers (emit (unknown_type_line 5) (count_clock_read world0)) = 0%nat /\
  http_calls (emit (unknown_type_line 5) (count_clock_read world0)) = 0%nat /\
  exists new,
    added world0 (emit (unknown_type_line 5) (count_clock_read world0)) new /\
    1 = 1 /\
    exists t,
      recognized t = false /\
      new = [ Logged "Unknown metric type: %v" [AMetricType t] ].
Proof.
  exact (conversion_effects (endpoint_env [] "200 OK" 200) unknown_snapshot
           world0 _ _ eq_refl).
Defined.

(** X3: the conversion of two snapshots one after the other, under the
    same clock reading, is the series of the first followed by the series
    of the second. *)
Theorem conversion_distributes_over_append env mfs1 mfs2 w :
  convertible mfs1 = true -> convertible mfs2 = true ->
  exists tss1 tss2 w1 w2 w12,
    createSnappyWithMetricFamily env mfs1 w =
      (w1, Returned ({| WriteRequest_Timeseries := tss1 |}, None)) /\
    createSnappyWithMetricFamily env mfs2 w =
      (w2, Returned ({| WriteRequest_Timeseries := tss2 |}, None)) /\
    createSnappyWithMetricFamily env (mfs1 ++ mfs2) w =
      (w12, Returned ({| WriteRequest_Timeseries := tss1 ++ tss2 |}, None)).
Proof.
  intros Hc1 Hc2.
  destruct (createSnappy_convertible env mfs1 w Hc1) as (tss1 & H1 & Hall1).
  destruct (createSnappy_convertible env mfs2 w Hc2) as (tss2 & H2 & Hall2).
  assert (convertible (mfs1 ++ mfs2) = true) as Hc
    by now rewrite convertible_app, Hc1, Hc2.
  destruct (createSnappy_convertible env (mfs1 ++ mfs2) w Hc)
    as (tss & H12 & Hall).
  rewrite metric_pairs_app in Hall.
  assert (tss = tss1 ++ tss2) as ->.
  { eapply Forall2_unique; [exact Hall | apply Forall2_app; eassumption |].
    intros p x y. apply pair_series_functional. }
  eexists tss1, tss2, _, _, _. eauto.
Qed.

Lemma conversion_distributes_over_append_witness :
  exists tss1 tss2 w1 w2 w12,
    createSnappyWithMetricFamily (endpoint_env [] "200 OK" 200)
      scenario_A world0 =
      (w1, Returned ({| WriteRequest_Timeseries := tss1 |}, None)) /\
    createSnappyWithMetricFamily (endpoint_env [] "200 OK" 200)
      mixed_snapshot world0 =
      (w2, Returned ({| WriteRequest_Timeseries := tss2 |}, None)) /\
    createSnappyWithMetricFamily (endpoint_env [] "200 OK" 200)
      (scenario_A ++ mixed_snapshot) world0 =
      (w12, Returned ({| WriteRequest_Timeseries := tss1 ++ tss2 |}, None)).
Proof.
  exact (conversion_distributes_over_append (endpoint_env [] "200 OK" 200)
           scenario_A mixed_snapshot world0 eq_refl eq_refl).
Defined.

(** X4: when the conversion of a snapshot does not return, neither does
    the conversion of that snapshot followed by more families: it ends in
    the same world with the same outcome, and the later families are never
    looked at. *)
Theorem failed_prefix_decides env mfs1 mfs2 w w1 o :
  createSnappyWithMetricFamily env mfs1 w = (w1, o) ->
  (forall r, o <> Returned r) ->
  createSnappyWithMetricFamily env (mfs1 ++ mfs2) w = (w1, o).
Proof.
  unfold createSnappyWithMetricFamily.
  rewrite !(bind_Returned _ _ w (count_clock_read w)
              (env_UnixNano env (clock_reads w))) by reflexivity.
  go_unfold. rewrite forRange_app. go_unfold.
  destruct (forRange _ mfs1 [] (count_clock_read w))
    as [w2 [tss | code | reason]].
  - intros [= <- <-] Hno. now destruct (Hno _ eq_refl).
  - auto.
  - auto.
Qed.

Lemma failed_prefix_decides_witness :
  createSnappyWithMetricFamily (endpoint_env [] "200 OK" 200)
    (unknown_snapshot ++ [None]) world0 =
    (emit (unknown_type_line 5) (count_clock_read world0), Exited 1).
Proof.
  apply (failed_prefix_decides (endpoint_env [] "200 OK" 200)
           unknown_snapshot [None] world0).
  - reflexivity.
  - discriminate.
Defined.

Lemma families_loop_prefix tStamp pre rest ts w :
  convertible pre = true ->
  exists new,
    forRange (familyBody tStamp) (pre ++ rest) ts w =
      forRange (familyBody tStamp) rest (ts ++ new) w.
Proof.
  intros Hc.
  destruct (families_loop_convertible tStamp pre ts w Hc) as (new & Hrun & _).
  exists new. rewrite forRange_app. now rewrite (bind_Returned _ _ _ _ _ Hrun).
Qed.

Lemma createSnappy_loop_Exited env mfs w w1 code :
  forRange (familyBody (capture_ms env w)) mfs [] (count_clock_read w) =
    (w1, Exited code) ->
  createSnappyWithMetricFamily env mfs w = (w1, Exited code).
Proof.
  intros Hloop. unfold createSnappyWithMetricFamily.
  rewrite (bind_Returned _ _ w (count_clock_read w)
             (env_UnixNano env (clock_reads w))) by reflexivity.
  now apply bind_Exited.
Qed.

Lemma createSnappy_loop_Panicked env mfs w w1 reason :
  forRange (familyBody (capture_ms env w)) mfs [] (count_clock_read w) =
    (w1, Panicked reason) ->
  createSnappyWithMetricFamily env mfs w = (w1, Panicked reason).
Proof.
  intros Hloop. unfold createSnappyWithMetricFamily.
  rewrite (bind_Returned _ _ w (count_clock_read w)
             (env_UnixNano env (clock_reads w))) by reflexivity.
  now apply bind_Panicked.
Qed.

(** X5: the first family that has a metric and a type outside the
    dispatch table decides the run: when the families before it are
    convertible and its first metric pointer is set, the conversion logs
    that family's type and exits with status 1, whatever its other metrics
    and the later families are. *)
Theorem first_unknown_type_wins env pre mf m ms t post w :
  convertible pre = true ->
  MetricFamily_Metric mf = Some m :: ms ->
  MetricFamily_Type mf = Some t ->
  recognized t = false ->
  createSnappyWithMetricFamily env (pre ++ Some mf :: post) w =
    (emit (Logged "Unknown metric type: %v" [AMetricType t])
       (count_clock_read w),
     Exited 1).
Proof.
  intros Hc Hms Ht Hr. apply createSnappy_loop_Exited.
  destruct (families_loop_prefix (capture_ms env w) pre (Some mf :: post) []
              (count_clock_read w) Hc) as (new & ->).
  simpl. apply bind_Exited. rewrite Hms.
  apply metrics_loop_unknown; assumption.
Qed.

Lemma first_unknown_type_wins_witness :
  createSnappyWithMetricFamily (endpoint_env [] "200 OK" 200)
    (scenario_A ++
     Some {| MetricFamily_Name := Some "native";
             MetricFamily_Type := Some 5;
             MetricFamily_Metric := [ Some (no_payload []); None ] |}
     :: [ None; family "other" 17 [ Some (no_payload []) ] ])
    world0 =
    (emit (Logged "Unknown metric type: %v" [AMetricType 5])
       (count_clock_read world0),
     Exited 1).
Proof.
  exact (first_unknown_type_wins (endpoint_env [] "200 OK" 200) scenario_A
           {| MetricFamily_Name := Some "native";
              MetricFamily_Type := Some 5;
              MetricFamily_Metric := [ Some (no_payload []); None ] |}
           (no_payload []) [None] 5
           [ None; family "other" 17 [ Some (no_payload []) ] ] world0
           eq_refl eq_refl eq_refl eq_refl).
Defined.

(** X6: a nil pointer met before any unknown type makes the conversion
    panic with a nil dereference, after the clock reading and with nothing
    printed or logged: a nil family pointer, a nil metric pointer (even in
    a family whose type is nil or unknown, when it is the first metric),
    or a nil type pointer on a family whose first metric is set. *)
Theorem nil_pointer_panics env pre mf post w :
  convertible pre = true ->
  nil_obstacle mf ->
  createSnappyWithMetricFamily env (pre ++ mf :: post) w =
    (count_clock_read w, Panicked nil_dereference).
Proof.
  intros Hc Hnil. apply createSnappy_loop_Panicked.
  destruct (families_loop_prefix (capture_ms env w) pre (mf :: post) []
              (count_clock_read w) Hc) as (new & ->).
  simpl. apply bind_Panicked.
  destruct Hnil as [-> | [(mf0 & ms1 & ms2 & -> & Hms & Hset & Hty)
                         | (mf0 & m & ms & -> & Hms & Ht)]].
  - reflexivity.
  - unfold familyBody. rewrite Hms, forRange_app.
    assert (exists new1,
              forRange (metricBody (capture_ms env w) mf0) ms1 ([] ++ new)
                (count_clock_read w) =
                (count_clock_read w, Returned (([] ++ new) ++ new1)))
      as (new1 & Hrun).
    { destruct Hty as [-> | Hty].
      - exists []. now rewrite app_nil_r.
      - unfold type_recognized in Hty.
        destruct (MetricFamily_Type mf0) as [t|] eqn:Ht; [|discriminate Hty].
        destruct (metrics_loop_recognized (capture_ms env w) mf0 t Ht Hty
                    ms1 ([] ++ new) (count_clock_read w) Hset)
          as (new1 & Hrun & _).
        eauto. }
    rewrite (bind_Returned _ _ _ _ _ Hrun). reflexivity.
  - unfold familyBody. rewrite Hms. simpl. apply bind_Panicked.
    unfold metricBody. now rewrite Ht.
Qed.

Lemma nil_pointer_panics_witness :
  createSnappyWithMetricFamily (endpoint_env [] "200 OK" 200)
    (scenario_A ++
     family "up" MetricType_GAUGE [ gauge_metric [] 1%float; None ]
     :: unknown_snapshot)
    world0 = (count_clock_read world0, Panicked nil_dereference).
Proof.
  apply (nil_pointer_panics (endpoint_env [] "200 OK" 200) scenario_A
           (family "up" MetricType_GAUGE [ gauge_metric [] 1%float; None ])
           unknown_snapshot world0 eq_refl).
  right. left. eexists _, [ gauge_metric [] 1%float ], [].
  split; [reflexivity|]. split; [reflexivity|]. split; [reflexivity|].
  right. reflexivity.
Defined.

(** X7: the timestamp of every sample is the clock reading in
    nanoseconds divided by 10^6 and truncated towards zero: it is less
    than a millisecond from the reading, never past it in absolute value,
    and of the reading's sign. *)
Theorem timestamp_truncates_clock env mfs w w' wr err :
  createSnappyWithMetricFamily env mfs w = (w', Returned (wr, err)) ->
  Forall
    (fun ts =>
       Forall
         (fun s =>
            let now := env_UnixNano env (clock_reads w) in
            let t := Sample_Timestamp s in
            Z.abs (now - 1000000 * t) < 1000000 /\
            (0 <= now -> 0 <= 1000000 * t <= now) /\
            (now <= 0 -> now <= 1000000 * t <= 0))
         (TimeSeries_Samples ts))
    (WriteRequest_Timeseries wr).
Proof.
  intros Hrun.
  destruct (createSnappy_Returned_series _ _ _ _ _ _ Hrun)
    as (_ & _ & _ & Hall).
  induction Hall as [|[mf m] ts ps tss Hts _ IH]; constructor; [|exact IH].
  destruct Hts as (t & v & _ & _ & _ & ->). simpl.
  constructor; [|constructor]. simpl. unfold capture_ms.
  set (now := env_UnixNano env (clock_reads w)).
  split; [|split].
  - pose proof (Z.quot_rem' now 1000000) as Hq.
    pose proof (Z.rem_bound_abs now 1000000 ltac:(lia)) as Hb. lia.
  - intros Hnow. pose proof (Z.quot_rem' now 1000000) as Hq.
    pose proof (Z.rem_bound_pos now 1000000 Hnow ltac:(lia)) as Hb.
    lia.
  - intros Hnow. pose proof (Z.quot_rem' now 1000000) as Hq.
    pose proof (Z.rem_bound_pos_neg now 1000000 ltac:(lia) Hnow) as Hb.
    lia.
Qed.

Lemma timestamp_truncates_clock_witness :
  Forall
    (fun ts =>
       Forall
         (fun s =>
            let now := 1700000000123456789 in
            let t := Sample_Timestamp s in
            Z.abs (now - 1000000 * t) < 1000000 /\
            (0 <= now -> 0 <= 1000000 * t <= now) /\
            (now <= 0 -> now <= 1000000 * t <= 0))
         (TimeSeries_Samples ts))
    (WriteRequest_Timeseries
       (fst (match snd (createSnappyWithMetricFamily
                          (endpoint_env [] "200 OK" 200) mixed_snapshot
                          world0) with
             | Returned r => r
             | _ => ({| WriteRequest_Timeseries := [] |}, None)
             end))).
Proof.
  exact (timestamp_truncates_clock (endpoint_env [] "200 OK" 200)
           mixed_snapshot world0 _ _ _ eq_refl).
Defined.

(** ** More on the delivery client and the loop *)

Lemma iteration_IterationEnd env url w w' o :
  iteration env url w = (w', o) -> IterationEnd env url w w' o.
Proof.
  unfold iteration.
  rewrite (bind_Returned _ _ w (count_gather w)
             (env_Gather env (gathers w))) by reflexivity.
  destruct (env_Gather env (gathers w)) as [e|mfs] eqn:Hg.
  { intros [= <- <-]. now apply gather_failed. }
  destruct (createSnappyWithMetricFamily env mfs (count_gather w))
    as [w1 o1] eqn:Hc.
  destruct (createSnappy_inv _ _ _ _ _ Hc)
    as [(tss & -> & _) | [(t & _ & -> & _) | (reason & -> & _)]].
  2: { rewrite (bind_Exited _ _ _ _ _ Hc). intros [= <- <-].
       eapply conversion_exited; eassumption. }
  2: { rewrite (bind_Panicked _ _ _ _ _ Hc). intros [= <- <-].
       eapply conversion_panicked; eassumption. }
  rewrite (bind_Returned _ _ _ _ _ Hc).
  assert (converted env w mfs w1 {| WriteRequest_Timeseries := tss |})
    as Hconv by (split; assumption).
  destruct (env_Marshal env {| WriteRequest_Timeseries := tss |})
    as [e|data] eqn:Hm.
  { intros [= <- <-]. eapply marshal_failed; eassumption. }
  go_unfold. rewrite sendToRemoteWrite_run.
  destruct (env_url_error env url) as [e|] eqn:Hurl.
  { intros [= <- <-]. eapply request_failed; eassumption. }
  fold (answer env url data w1). fold (after_request env url data w1).
  destruct (answer env url data w1) as [e|resp] eqn:Hdo.
  { intros [= <- <-]. eapply transport_failed; eassumption. }
  unfold StatusOK.
  destruct (Z.eqb_spec (Response_StatusCode resp) 200) as [Heq | Hne]; simpl.
  - unfold Body_Close, log_Println. intros [= <- <-].
    eapply delivered; eassumption.
  - unfold Body_Close, log_Fatalf. intros [= <- <-].
    eapply delivery_rejected; eassumption.
Qed.

Lemma IterationEnd_iteration env url w w' o :
  IterationEnd env url w w' o -> iteration env url w = (w', o).
Proof.
  intros Hend. unfold iteration.
  rewrite (bind_Returned _ _ w (count_gather w)
             (env_Gather env (gathers w))) by reflexivity.
  destruct Hend as
    [ e Hg | mfs w1 Hg Hc | mfs w1 reason Hg Hc
    | mfs w1 wr e [Hg Hc] Hm | mfs w1 wr data e [Hg Hc] Hm Hurl
    | mfs w1 wr data e [Hg Hc] Hm Hurl Hdo
    | mfs w1 wr data resp [Hg Hc] Hm Hurl Hdo Hst
    | mfs w1 wr data resp [Hg Hc] Hm Hurl Hdo Hst ];
    rewrite Hg; try reflexivity.
  - now apply bind_Exited.
  - now apply bind_Panicked.
  - rewrite (bind_Returned _ _ _ _ _ Hc), Hm. reflexivity.
  - rewrite (bind_Returned _ _ _ _ _ Hc), Hm. go_unfold.
    rewrite sendToRemoteWrite_run, Hurl. reflexivity.
  - rewrite (bind_Returned _ _ _ _ _ Hc), Hm. go_unfold.
    rewrite sendToRemoteWrite_run, Hurl.
    fold (answer env url data w1). rewrite Hdo. reflexivity.
  - rewrite (bind_Returned _ _ _ _ _ Hc), Hm. go_unfold.
    rewrite sendToRemoteWrite_run, Hurl.
    fold (answer env url data w1). rewrite Hdo. unfold StatusOK.
    destruct (Z.eqb_spec (Response_StatusCode resp) 200); [contradiction|].
    reflexivity.
  - rewrite (bind_Returned _ _ _ _ _ Hc), Hm. go_unfold.
    rewrite sendToRemoteWrite_run, Hurl.
    fold (answer env url data w1). rewrite Hdo. unfold StatusOK.
    rewrite Hst. reflexivity.
Qed.

Lemma createSnappy_Exited_world env mfs w w1 code :
  createSnappyWithMetricFamily env mfs w = (w1, Exited code) ->
  exists t,
    recognized t = false /\ code = 1 /\
    w1 = emit (unknown_type_line t) (count_clock_read w).
Proof.
  intros Hc.
  destruct (createSnappy_inv _ _ _ _ _ Hc)
    as [(tss & [=] & _) | [(t & Hr & [= ->] & ->) | (reason & [=] & _)]].
  eauto.
Qed.

Lemma createSnappy_Panicked_world env mfs w w1 reason :
  createSnappyWithMetricFamily env mfs w = (w1, Panicked reason) ->
  w1 = count_clock_read w.
Proof.
  intros Hc.
  destruct (createSnappy_inv _ _ _ _ _ Hc)
    as [(tss & [=] & _) | [(t & _ & [=] & _) | (r & _ & ->)]].
  reflexivity.
Qed.

(** The cases of [IterationEnd] for a run of [iteration], with the world
    after the conversion written out. *)
Ltac iteration_cases H :=
  apply iteration_IterationEnd in H;
  let Hg := fresh "Hg" in
  let Hc := fresh "Hc" in
  let Hm := fresh "Hm" in
  let Hurl := fresh "Hurl" in
  let Hdo := fresh "Hdo" in
  let Hst := fresh "Hst" in
  let Hser := fresh "Hser" in
  let Hcv := fresh "Hcv" in
  destruct H as
    [ e Hg | mfs w1 Hg Hc | mfs w1 reason Hg Hc
    | mfs w1 wr e [Hg Hc] Hm | mfs w1 wr data e [Hg Hc] Hm Hurl
    | mfs w1 wr data e [Hg Hc] Hm Hurl Hdo
    | mfs w1 wr data resp [Hg Hc] Hm Hurl Hdo Hst
    | mfs w1 wr data resp [Hg Hc] Hm Hurl Hdo Hst ];
  [ idtac
  | destruct (createSnappy_Exited_world _ _ _ _ _ Hc) as (t & Hr & _ & ->)
  | pose proof (createSnappy_Panicked_world _ _ _ _ _ Hc); subst w1
  | destruct (createSnappy_Returned_series _ _ _ _ _ _ Hc)
      as (Hcv & _ & -> & Hser) ..  ].

(** What one iteration does to the counters and how many requests and
    body closes it adds. *)
Lemma iteration_measures env url w w' o :
  iteration env url w = (w', o) ->
  exists new c h b,
    added w w' new /\
    gathers w' = S (gathers w) /\
    clock_reads w' = (clock_reads w + c)%nat /\
    http_calls w' = (http_calls w + h)%nat /\
    count_events is_HTTPDo new = h /\
    count_events is_BodyClose new = b /\
    (b <= h <= c)%nat /\ (c <= 1)%nat /\
    (o = Returned tt -> b = 1%nat /\ length new = 4%nat) /\
    (b < h -> o = Exited 1)%nat /\
    Forall (fun ev => forall resp,
              ev = BodyClose resp -> o = Returned tt ->
              Response_StatusCode resp = 200) new.
Proof.
  intros Hit. iteration_cases Hit.
  - exists [Logged "Failed to gather metrics: %v" [AError e]], 0%nat, 0%nat,
      0%nat.
    split; [reflexivity|]. simpl. repeat split; try lia; try discriminate.
    repeat constructor; discriminate.
  - exists [unknown_type_line t], 1%nat, 0%nat, 0%nat.
    split; [reflexivity|]. simpl. repeat split; try lia; try discriminate.
    repeat constructor; discriminate.
  - exists [], 1%nat, 0%nat, 0%nat.
    split; [solve_added|]. simpl. repeat split; try lia; try discriminate.
    constructor.
  - eexists [_; _], 1%nat, 0%nat, 0%nat.
    split; [unfold added; simpl; rewrite <- app_assoc; reflexivity|].
    simpl. repeat split; try lia; try discriminate.
    repeat constructor; discriminate.
  - eexists [_; _], 1%nat, 0%nat, 0%nat.
    split; [unfold added; simpl; rewrite <- app_assoc; reflexivity|].
    simpl. repeat split; try lia; try discriminate.
    repeat constructor; discriminate.
  - eexists [_; _; _], 1%nat, 1%nat, 0%nat.
    split; [unfold added; simpl; rewrite <- !app_assoc; reflexivity|].
    simpl. repeat split; try lia; try discriminate.
    repeat constructor; discriminate.
  - eexists [_; _; _; _], 1%nat, 1%nat, 1%nat.
    split; [unfold added; simpl; rewrite <- !app_assoc; reflexivity|].
    simpl. repeat split; try lia; try discriminate.
    repeat constructor; discriminate.
  - eexists [_; _; _; _], 1%nat, 1%nat, 1%nat.
    split; [unfold added; simpl; rewrite <- !app_assoc; reflexivity|].
    simpl. repeat split; try lia; try discriminate.
    repeat constructor; try discriminate.
    intros resp' [= <-] _. assumption.
Qed.

Lemma count_events_app kind evs1 evs2 :
  count_events kind (evs1 ++ evs2) =
    (count_events kind evs1 + count_events kind evs2)%nat.
Proof. unfold count_events. now rewrite List.filter_app, length_app. Qed.

Lemma tickLoop_measures env url ticks :
  forall w w' o,
    tickLoop env url ticks w = (w', o) ->
    exists new g c h b,
      added w w' new /\
      gathers w' = (gathers w + g)%nat /\
      clock_reads w' = (clock_reads w + c)%nat /\
      http_calls w' = (http_calls w + h)%nat /\
      count_events is_HTTPDo new = h /\
      count_events is_BodyClose new = b /\
      (b <= h <= c)%nat /\ (c <= g <= ticks)%nat /\ (h <= b + 1)%nat /\
      (o = Returned tt ->
       b = ticks /\ length new = (4 * ticks)%nat /\
       Forall (fun ev => forall resp,
                 ev = BodyClose resp -> Response_StatusCode resp = 200) new).
Proof.
  induction ticks as [|n IH]; intros w w' o; simpl.
  - intros [= <- <-]. exists [], 0%nat, 0%nat, 0%nat, 0%nat.
    split; [apply added_refl|]. simpl.
    repeat split; try lia. constructor.
  - go_unfold. destruct (iteration env url w) as [w1 o1] eqn:Hit.
    destruct (iteration_measures _ _ _ _ _ Hit)
      as (new1 & c1 & h1 & b1 & Hadd1 & Hg1 & Hc1 & Hh1 & Hn1 & Hb1
          & Hle1 & Hc1le & Hret1 & Hlt1 & Hall1).
    destruct o1 as [[] | code | reason].
    + intros Hrest. destruct (Hret1 eq_refl) as [-> Hlen1].
      destruct (IH _ _ _ Hrest)
        as (new2 & g2 & c2 & h2 & b2 & Hadd2 & Hg2 & Hc2 & Hh2 & Hn2 & Hb2
            & Hle2 & Hgle2 & Hhb2 & Hret2).
      exists (new1 ++ new2), (S g2), (c1 + c2)%nat, (h1 + h2)%nat,
        (1 + b2)%nat.
      split; [eapply added_trans; eassumption|].
      rewrite !count_events_app, Hn1, Hn2, Hb1, Hb2.
      do 8 (split; [lia|]).
      intros Ho. destruct (Hret2 Ho) as (-> & Hlen2 & Hall2).
      split; [reflexivity|]. split; [rewrite length_app; lia|].
      apply Forall_app. split; [|exact Hall2].
      eapply Forall_impl; [exact Hall1|].
      intros ev Hev resp Hresp. now apply Hev.
    + intros [= <- <-]. exists new1, 1%nat, c1, h1, b1.
      repeat split; try assumption; try lia; discriminate.
    + intros [= <- <-]. exists new1, 1%nat, c1, h1, b1.
      repeat split; try assumption; try lia; discriminate.
Qed.

(** X11: in any run of [RemoteWrite], whatever its outcome, no tick
    gathers more than once, no conversion happens without a gather, no
    request without a conversion, and no body is closed without a request;
    at most one request, the last, is left without a closed body.  The
    counters of the world agree with the requests of the trace. *)
Theorem stages_are_nested env url frequency ticks w w' o :
  RemoteWrite env url frequency ticks w = (w', o) ->
  exists new g c h b,
    added w w' new /\
    gathers w' = (gathers w + g)%nat /\
    clock_reads w' = (clock_reads w + c)%nat /\
    http_calls w' = (http_calls w + h)%nat /\
    count_events is_HTTPDo new = h /\
    count_events is_BodyClose new = b /\
    (b <= h)%nat /\ (h <= c)%nat /\ (c <= g)%nat /\ (g <= ticks)%nat /\
    (h <= b + 1)%nat.
Proof.
  unfold RemoteWrite. destruct (frequency <=? 0).
  - intros [= <- <-]. exists [], 0%nat, 0%nat, 0%nat, 0%nat.
    split; [apply added_refl|]. simpl. repeat split; lia.
  - intros Hrun.
    destruct (tickLoop_measures _ _ _ _ _ _ Hrun)
      as (new & g & c & h & b & Hadd & Hg & Hc & Hh & Hn & Hb
          & Hle & Hgle & Hhb & _).
    exists new, g, c, h, b. repeat split; try assumption; lia.
Qed.

Lemma stages_are_nested_witness :
  exists new g c h b,
    added world0
      (fst (RemoteWrite (endpoint_env mixed_snapshot "503 Unavailable" 503)
              endpoint_url 5 3 world0)) new /\
    gathers (fst (RemoteWrite
                    (endpoint_env mixed_snapshot "503 Unavailable" 503)
                    endpoint_url 5 3 world0)) = (0 + g)%nat /\
    clock_reads (fst (RemoteWrite
                        (endpoint_env mixed_snapshot "503 Unavailable" 503)
                        endpoint_url 5 3 world0)) = (0 + c)%nat /\
    http_calls (fst (RemoteWrite
                       (endpoint_env mixed_snapshot "503 Unavailable" 503)
                       endpoint_url 5 3 world0)) = (0 + h)%nat /\
    count_events is_HTTPDo new = h /\
    count_events is_BodyClose new = b /\
    (b <= h)%nat /\ (h <= c)%nat /\ (c <= g)%nat /\ (g <= 3)%nat /\
    (h <= b + 1)%nat.
Proof.
  exact (stages_are_nested (endpoint_env mixed_snapshot "503 Unavailable" 503)
           endpoint_url 5 3 world0 _ _ (surjective_pairing _)).
Defined.

(** X12: a run of [RemoteWrite] that gets through all its ticks has, in
    every tick, gathered once, read the clock once, made one request and
    closed one body: the counters advance by the number of ticks, the
    trace gains four events per tick, and every response closed had
    status 200. *)
Theorem completed_run_delivered_every_tick env url frequency ticks w w' :
  RemoteWrite env url frequency ticks w = (w', Returned tt) ->
  exists new,
    added w w' new /\
    gathers w' = (gathers w + ticks)%nat /\
    clock_reads w' = (clock_reads w + ticks)%nat /\
    http_calls w' = (http_calls w + ticks)%nat /\
    count_events is_HTTPDo new = ticks /\
    count_events is_BodyClose new = ticks /\
    length new = (4 * ticks)%nat /\
    Forall (fun ev => forall resp,
              ev = BodyClose resp -> Response_StatusCode resp = 200) new.
Proof.
  unfold RemoteWrite. destruct (frequency <=? 0); [discriminate|].
  intros Hrun.
  destruct (tickLoop_measures _ _ _ _ _ _ Hrun)
    as (new & g & c & h & b & Hadd & Hg & Hc & Hh & Hn & Hb
        & Hle & Hgle & Hhb & Hret).
  destruct (Hret eq_refl) as (Hbt & Hlen & Hall).
  assert (h = ticks /\ c = ticks /\ g = ticks) as (-> & -> & ->) by lia.
  exists new. subst b. repeat split; assumption.
Qed.

Lemma completed_run_delivered_every_tick_witness :
  exists new,
    added world0
      (fst (RemoteWrite (endpoint_env mixed_snapshot "200 OK" 200)
              endpoint_url 5 3 world0)) new /\
    gathers (fst (RemoteWrite (endpoint_env mixed_snapshot "200 OK" 200)
                    endpoint_url 5 3 world0)) = 3%nat /\
    clock_reads (fst (RemoteWrite (endpoint_env mixed_snapshot "200 OK" 200)
                        endpoint_url 5 3 world0)) = 3%nat /\
    http_calls (fst (RemoteWrite (endpoint_env mixed_snapshot "200 OK" 200)
                       endpoint_url 5 3 world0)) = 3%nat /\
    count_events is_HTTPDo new = 3%nat /\
    count_events is_BodyClose new = 3%nat /\
    length new = 12%nat /\
    Forall (fun ev => forall resp,
              ev = BodyClose resp -> Response_StatusCode resp = 200) new.
Proof.
  exact (completed_run_delivered_every_tick
           (endpoint_env mixed_snapshot "200 OK" 200) endpoint_url 5 3 world0
           _ eq_refl).
Defined.

(** X8: [sendToRemoteWrite] always returns, with a response or an error
    and never both or neither.  A URL that does not parse costs no network
    traffic and gives the parse error wrapped as a request-creation
    failure; otherwise exactly one request is made, and a transport error
    comes back wrapped as a send failure. *)
Theorem send_returns_response_or_error env data url w :
  exists w' resp err,
    sendToRemoteWrite env data url w = (w', Returned (resp, err)) /\
    (resp = None <-> err <> None) /\
    match env_url_error env url with
    | Some e =>
        w' = w /\
        err = Some (Errorf "failed to create HTTP request: %w" e)
    | None =>
        exists req,
          added w w' [HTTPDo req] /\
          http_calls w' = S (http_calls w) /\
          Request_Method req = "POST" /\ Request_URL req = url /\
          Request_Body req = data /\
          match env_Do env (http_calls w) req with
          | inl e => err = Some (Errorf "failed to send HTTP request: %w" e)
          | inr r => resp = Some r
          end
    end.
Proof.
  rewrite sendToRemoteWrite_run.
  destruct (env_url_error env url) as [e|].
  - eexists _, _, _. split; [reflexivity|].
    split; [split; [discriminate | reflexivity]|]. split; reflexivity.
  - destruct (env_Do env (http_calls w) (delivery_request url data))
      as [e|r] eqn:Hdo.
    + eexists _, _, _. split; [reflexivity|].
      split; [split; [discriminate | reflexivity]|].
      exists (delivery_request url data).
      repeat (split; [reflexivity|]). now rewrite Hdo.
    + eexists _, _, _. split; [reflexivity|].
      split; [split; [discriminate | intros H; now destruct H]|].
      exists (delivery_request url data).
      repeat (split; [reflexivity|]). now rewrite Hdo.
Qed.

(** X9: one iteration of [RemoteWrite] ends in exactly one of eight ways,
    decided by the first stage that does not go through: gather,
    conversion (exit or panic), marshalling, request creation, transport,
    status check, or none.  Each way fixes the outcome, the log line and
    what has happened in the world before it. *)
Theorem iteration_ends_by_first_failing_stage env url w w' o :
  iteration env url w = (w', o) <-> IterationEnd env url w w' o.
Proof.
  split; [apply iteration_IterationEnd | apply IterationEnd_iteration].
Qed.

Lemma tickLoop_app env url n k w :
  tickLoop env url (n + k) w =
    (_ ← tickLoop env url n; tickLoop env url k) w.
Proof.
  revert w. induction n as [|n IH]; intros w; [reflexivity|].
  simpl. go_unfold.
  destruct (iteration env url w) as [w1 [[] | code | reason]];
    [apply IH | reflexivity | reflexivity].
Qed.

(** X10: running [RemoteWrite] for more ticks only extends what it did
    in fewer: the trace of the shorter run is a prefix of the trace of the
    longer one, and a run that has exited or panicked is over: more ticks
    change neither its world nor its outcome. *)
Theorem later_ticks_extend_the_run env url frequency n m w :
  (n <= m)%nat ->
  exists rest,
    trace (fst (RemoteWrite env url frequency m w)) =
      trace (fst (RemoteWrite env url frequency n w)) ++ rest /\
    ((forall r, snd (RemoteWrite env url frequency n w) <> Returned r) ->
     RemoteWrite env url frequency m w = RemoteWrite env url frequency n w).
Proof.
  intros Hle. unfold RemoteWrite. destruct (frequency <=? 0).
  - exists []. split; [now rewrite app_nil_r | reflexivity].
  - replace m with (n + (m - n))%nat by lia.
    rewrite tickLoop_app. go_unfold.
    destruct (tickLoop env url n w) as [w1 [[] | code | reason]] eqn:Hn.
    + destruct (tickLoop env url (m - n) w1) as [w2 o2] eqn:Hk.
      destruct (tickLoop_events _ _ _ _ _ _ Hk) as (rest & Hadd & _).
      exists rest. split; [exact Hadd|].
      intros Hno. now destruct (Hno tt).
    + exists []. split; [now rewrite app_nil_r | reflexivity].
    + exists []. split; [now rewrite app_nil_r | reflexivity].
Qed.

Lemma later_ticks_extend_the_run_witness :
  exists rest,
    trace (fst (RemoteWrite
                  (endpoint_env scenario_A "503 Service Unavailable" 503)
                  endpoint_url 5 4 world0)) =
      trace (fst (RemoteWrite
                    (endpoint_env scenario_A "503 Service Unavailable" 503)
                    endpoint_url 5 1 world0)) ++ rest /\
    ((forall r,
        snd (RemoteWrite
               (endpoint_env scenario_A "503 Service Unavailable" 503)
               endpoint_url 5 1 world0) <> Returned r) ->
     RemoteWrite (endpoint_env scenario_A "503 Service Unavailable" 503)
       endpoint_url 5 4 world0 =
     RemoteWrite (endpoint_env scenario_A "503 Service Unavailable" 503)
       endpoint_url 5 1 world0).
Proof.
  apply (later_ticks_extend_the_run
           (endpoint_env scenario_A "503 Service Unavailable" 503)
           endpoint_url 5 1 4 world0).
  repeat constructor.
Defined.

Lemma metrics_loop_no_nil tStamp mf t :
  MetricFamily_Type mf = Some t ->
  forall ms ts w,
    forallb is_set ms = true ->
    forall w' reason,
      forRange (metricBody tStamp mf) ms ts w <> (w', Panicked reason).
Proof.
  intros Ht ms ts w Hset w' reason.
  destruct (recognized t) eqn:Hr.
  - destruct (metrics_loop_recognized tStamp mf t Ht Hr ms ts w Hset)
      as (new & -> & _).
    discriminate.
  - destruct ms as [|m ms]; [discriminate|].
    simpl in Hset. apply andb_true_iff in Hset as [Hm _].
    destruct m as [m|]; [|discriminate Hm].
    rewrite (metrics_loop_unknown tStamp mf t m ms ts w Ht Hr). discriminate.
Qed.

Lemma families_loop_no_nil tStamp :
  forall mfs ts w,
    no_nil mfs = true ->
    forall w' reason,
      forRange (familyBody tStamp) mfs ts w <> (w', Panicked reason).
Proof.
  induction mfs as [|mf mfs IH]; intros ts w Hnn w' reason; [discriminate|].
  simpl in Hnn. apply andb_true_iff in Hnn as [Hmf Hmfs].
  destruct mf as [mf|]; [|discriminate Hmf].
  simpl in Hmf. apply andb_true_iff in Hmf as [Hty Hset].
  destruct (MetricFamily_Type mf) as [t|] eqn:Ht; [|discriminate Hty].
  destruct (familyBody tStamp (Some mf) ts w) as [w1 [ts1 | code | r]] eqn:Hb.
  - rewrite (forRange_cons_Returned _ _ _ _ _ _ _ Hb). apply IH, Hmfs.
  - cbn [forRange]. rewrite (bind_Exited _ _ _ _ _ Hb). discriminate.
  - exfalso. unfold familyBody in Hb.
    now apply (metrics_loop_no_nil tStamp mf t Ht _ ts w Hset w1 r).
Qed.

Lemma createSnappy_no_nil env mfs w :
  no_nil mfs = true ->
  forall w' reason,
    createSnappyWithMetricFamily env mfs w <> (w', Panicked reason).
Proof.
  intros Hnn w' reason Hrun.
  unfold createSnappyWithMetricFamily in Hrun.
  rewrite (bind_Returned _ _ w (count_clock_read w)
             (env_UnixNano env (clock_reads w))) in Hrun by reflexivity.
  go_unfold.
  destruct (forRange _ mfs [] (count_clock_read w))
    as [w1 [ts1 | code | r]] eqn:Hloop; try discriminate Hrun.
  now apply (families_loop_no_nil _ _ _ _ Hnn _ _ Hloop).
Qed.

(** X13: [RemoteWrite] started with a positive interval never panics as
    long as no gathered snapshot holds a nil family, metric or type
    pointer: every run returns from its ticks or exits. *)
Theorem no_panic_without_nil_pointers env url frequency ticks w w' o :
  0 < frequency ->
  (forall n mfs, env_Gather env n = inr mfs -> no_nil mfs = true) ->
  RemoteWrite env url frequency ticks w = (w', o) ->
  o = Returned tt \/ o = Exited 1.
Proof.
  intros Hf Hwf. unfold RemoteWrite.
  destruct (Z.leb_spec frequency 0); [lia|].
  revert w w' o. induction ticks as [|n IH]; intros w w' o; simpl.
  - intros [= <- <-]. now left.
  - go_unfold. destruct (iteration env url w) as [w1 o1] eqn:Hit.
    iteration_cases Hit;
      try (intros [= <- <-]; right; reflexivity).
    + exfalso.
      eapply createSnappy_no_nil; [eapply Hwf; eassumption | eassumption].
    + apply IH.
Qed.

Lemma no_panic_without_nil_pointers_witness :
  snd (RemoteWrite (endpoint_env unknown_snapshot "200 OK" 200) endpoint_url
         5 3 world0) = Returned tt \/
  snd (RemoteWrite (endpoint_env unknown_snapshot "200 OK" 200) endpoint_url
         5 3 world0) = Exited 1.
Proof.
  apply (no_panic_without_nil_pointers
           (endpoint_env unknown_snapshot "200 OK" 200) endpoint_url 5 3
           world0
           (fst (RemoteWrite (endpoint_env unknown_snapshot "200 OK" 200)
                   endpoint_url 5 3 world0))).
  - reflexivity.
  - intros n mfs [= <-]. reflexivity.
  - apply surjective_pairing.
Defined.

Lemma iteration_request env url w w' o :
  iteration env url w = (w', o) ->
  exists new,
    added w w' new /\
    (List.filter is_HTTPDo new = [] \/
     exists req,
       List.filter is_HTTPDo new = [HTTPDo req] /\
       request_of_tick env url (gathers w) (clock_reads w) req) /\
    (o = Returned tt ->
     List.filter is_HTTPDo new <> [] /\
     gathers w' = S (gathers w) /\ clock_reads w' = S (clock_reads w)).
Proof.
  intros Hit. iteration_cases Hit.
  - eexists [_]. split; [reflexivity|]. split; [now left | discriminate].
  - eexists [_]. split; [reflexivity|]. split; [now left | discriminate].
  - exists []. split; [solve_added|]. split; [now left | discriminate].
  - eexists [_; _].
    split; [unfold added; simpl; rewrite <- !app_assoc; reflexivity|].
    split; [now left | discriminate].
  - eexists [_; _].
    split; [unfold added; simpl; rewrite <- !app_assoc; reflexivity|].
    split; [now left | discriminate].
  - eexists [_; _; _].
    split; [unfold added; simpl; rewrite <- !app_assoc; reflexivity|].
    split; [|discriminate]. right. eexists. split; [reflexivity|].
    destruct wr as [tss]. exists mfs, tss, data. auto.
  - eexists [_; _; _; _].
    split; [unfold added; simpl; rewrite <- !app_assoc; reflexivity|].
    split; [|discriminate]. right. eexists. split; [reflexivity|].
    destruct wr as [tss]. exists mfs, tss, data. auto.
  - eexists [_; _; _; _].
    split; [unfold added; simpl; rewrite <- !app_assoc; reflexivity|].
    split.
    + right. eexists. split; [reflexivity|].
      destruct wr as [tss]. exists mfs, tss, data. auto.
    + intros _. split; [discriminate|]. split; reflexivity.
Qed.

(** X14: no state crosses ticks: the k-th request of a run carries the
    snapshot of the k-th gather of that run, converted under the k-th
    clock reading of that run, marshalled and compressed. *)
Theorem kth_request_is_of_kth_tick env url frequency ticks w w' o :
  RemoteWrite env url frequency ticks w = (w', o) ->
  exists new,
    added w w' new /\
    forall k req,
      List.filter is_HTTPDo new !! k = Some (HTTPDo req) ->
      request_of_tick env url (gathers w + k) (clock_reads w + k) req.
Proof.
  unfold RemoteWrite. destruct (frequency <=? 0).
  { intros [= <- <-]. exists []. split; [apply added_refl|].
    intros k req Hk. destruct k; discriminate Hk. }
  revert w. induction ticks as [|n IH]; intros w; simpl.
  { intros [= <- <-]. exists []. split; [apply added_refl|].
    intros k req Hk. destruct k; discriminate Hk. }
  go_unfold. destruct (iteration env url w) as [w1 o1] eqn:Hit.
  destruct (iteration_request _ _ _ _ _ Hit) as (new1 & Hadd1 & Hreq1 & Hret1).
  assert (forall k req,
            List.filter is_HTTPDo new1 !! k = Some (HTTPDo req) ->
            k = 0%nat /\
            request_of_tick env url (gathers w) (clock_reads w) req) as Hone.
  { intros k req Hk. destruct Hreq1 as [Hnil | (req1 & Hf & Hfresh)].
    - rewrite Hnil in Hk. destruct k; discriminate Hk.
    - rewrite Hf in Hk. destruct k as [|k]; [|destruct k; discriminate Hk].
      injection Hk as <-. auto. }
  destruct o1 as [[] | code | reason].
  - intros Hrest. destruct (Hret1 eq_refl) as (Hne & Hg1 & Hc1).
    destruct (IH _ Hrest) as (new2 & Hadd2 & Hall2).
    exists (new1 ++ new2). split; [eapply added_trans; eassumption|].
    intros k req. rewrite List.filter_app.
    destruct Hreq1 as [Hnil | (req1 & Hf & Hfresh)]; [contradiction|].
    rewrite Hf. destruct k as [|k]; simpl.
    + intros [= <-]. now rewrite !Nat.add_0_r.
    + intros Hk. specialize (Hall2 _ _ Hk). rewrite Hg1, Hc1 in Hall2.
      now rewrite <- !Nat.add_succ_comm.
  - intros [= <- <-]. exists new1. split; [exact Hadd1|].
    intros k req Hk. destruct (Hone _ _ Hk) as [-> Hfresh].
    now rewrite !Nat.add_0_r.
  - intros [= <- <-]. exists new1. split; [exact Hadd1|].
    intros k req Hk. destruct (Hone _ _ Hk) as [-> Hfresh].
    now rewrite !Nat.add_0_r.
Qed.

Lemma kth_request_is_of_kth_tick_witness :
  exists new,
    added world0
      (fst (RemoteWrite (endpoint_env mixed_snapshot "200 OK" 200)
              endpoint_url 5 3 world0)) new /\
    forall k req,
      List.filter is_HTTPDo new !! k = Some (HTTPDo req) ->
      request_of_tick (endpoint_env mixed_snapshot "200 OK" 200)
        endpoint_url (0 + k) (0 + k) req.
Proof.
  exact (kth_request_is_of_kth_tick
           (endpoint_env mixed_snapshot "200 OK" 200) endpoint_url 5 3 world0
           _ _ (surjective_pairing _)).
Defined.

Lemma families_loop_skip_empty tStamp :
  forall mfs ts w,
    forRange (familyBody tStamp) (List.filter has_work mfs) ts w =
      forRange (familyBody tStamp) mfs ts w.
Proof.
  induction mfs as [|mf mfs IH]; intros ts w; [reflexivity|].
  cbn [List.filter]. destruct (has_work mf) eqn:Hw.
  - cbn [forRange]. go_unfold.
    destruct (familyBody tStamp mf ts w) as [w1 [ts1 | code | reason]];
      [apply IH | reflexivity | reflexivity].
  - destruct mf as [mf|]; [|discriminate Hw]. simpl in Hw.
    apply negb_false_iff, bool_decide_eq_true in Hw.
    rewrite IH. cbn [forRange]. go_unfold. unfold familyBody.
    rewrite Hw. reflexivity.
Qed.

(** X15: families without metrics are invisible to the conversion,
    whatever their name and type (nil and unknown types included):
    leaving them out of the snapshot changes neither the outcome nor the
    world. *)
Theorem empty_families_are_invisible env mfs w :
  createSnappyWithMetricFamily env (List.filter has_work mfs) w =
    createSnappyWithMetricFamily env mfs w.
Proof.
  unfold createSnappyWithMetricFamily. go_unfold.
  unfold time_Now_UnixNano. now rewrite families_loop_skip_empty.
Qed.

(** X16: the metric's label pairs are copied without check: the series
    has one label more than the metric has pairs, a nil pair or a nil name
    or value becomes the empty string, and a pair that is itself named
    [__name__] is kept after the synthetic one. *)
Theorem labels_are_copied_unchecked env mfs w w' wr err :
  createSnappyWithMetricFamily env mfs w = (w', Returned (wr, err)) ->
  Forall2
    (fun p ts =>
       length (TimeSeries_Labels ts) = S (length (Metric_Label (snd p))) /\
       forall i lp,
         Metric_Label (snd p) !! i = Some lp ->
         TimeSeries_Labels ts !! S i =
           Some {| Label_Name :=
                     match lp with
                     | Some {| LabelPair_Name := Some name |} => name
                     | _ => ""
                     end;
                   Label_Value :=
                     match lp with
                     | Some {| LabelPair_Value := Some value |} => value
                     | _ => ""
                     end |})
    (metric_pairs mfs) (WriteRequest_Timeseries wr).
Proof.
  intros Hrun.
  destruct (createSnappy_Returned_series _ _ _ _ _ _ Hrun)
    as (_ & _ & _ & Hall).
  eapply Forall2_impl; [exact Hall|].
  intros [mf m] ts (t & v & _ & _ & _ & ->). simpl. split.
  - now rewrite length_map.
  - intros i lp Hlp. rewrite list_lookup_fmap, Hlp. simpl.
    destruct lp as [[[name|] [value|]]|]; reflexivity.
Qed.

Lemma labels_are_copied_unchecked_witness :
  Forall2
    (fun p ts =>
       length (TimeSeries_Labels ts) = S (length (Metric_Label (snd p))) /\
       forall i lp,
         Metric_Label (snd p) !! i = Some lp ->
         TimeSeries_Labels ts !! S i =
           Some {| Label_Name :=
                     match lp with
                     | Some {| LabelPair_Name := Some name |} => name
                     | _ => ""
                     end;
                   Label_Value :=
                     match lp with
                     | Some {| LabelPair_Value := Some value |} => value
                     | _ => ""
                     end |})
    (metric_pairs
       [ family "up" MetricType_GAUGE
           [ gauge_metric [ pair_of "__name__" "down"; None ] 1%float ] ])
    [ {| TimeSeries_Labels :=
           [ {| Label_Name := "__name__"; Label_Value := "up" |};
             {| Label_Name := "__name__"; Label_Value := "down" |};
             {| Label_Name := ""; Label_Value := "" |} ];
         TimeSeries_Samples :=
           [ {| Sample_Value := 1%float;
                Sample_Timestamp := 1700000000123 |} ] |} ].
Proof.
  exact (labels_are_copied_unchecked (endpoint_env [] "200 OK" 200)
           [ family "up" MetricType_GAUGE
               [ gauge_metric [ pair_of "__name__" "down"; None ] 1%float ] ]
           world0 _ _ _ eq_refl).
Defined.
(** ** The background task of the sample application *)

Import sample_app.

Lemma taskLoop_snoc env n s :
  taskLoop env (S n) s = taskRound env (taskLoop env n s).
Proof.
  revert s. induction n as [|n IH]; intros s; [reflexivity|].
  change (taskLoop env (S (S n)) s) with (taskLoop env (S n) (taskRound env s)).
  rewrite IH. reflexivity.
Qed.

Lemma seq_snoc n : seq 0 (S n) = seq 0 n ++ [n].
Proof. now rewrite seq_S. Qed.

(** The state after [n] rounds on fresh metrics. *)
Lemma taskLoop_fresh env n :
  let s := taskLoop env n fresh_metrics in
  task_clock_reads s = n /\ task_draws s = (2 * n)%nat /\
  ticks_awaited s = n /\ length (slept s) = n /\
  totalCount s = n /\
  failureCount s =
    length (List.filter (fun k => negb (succeeded env k)) (seq 0 n)) /\
  lastRun s = match n with O => 0%float | S k => stamp env k end /\
  lastSuccess s =
    from_option (stamp env) 0%float
      (last (List.filter (succeeded env) (seq 0 n))).
Proof.
  induction n as [|n IH]; [cbn; repeat split; reflexivity|].
  cbv zeta in *. rewrite taskLoop_snoc.
  destruct IH as (Hc & Hd & Ht & Hs & Htot & Hfail & _ & Hsucc).
  set (s := taskLoop env n fresh_metrics) in *.
  assert (PrimFloat.ltb success_threshold
            (task_Float64 env (S (task_draws s))) = succeeded env n) as Hdraw
    by (unfold succeeded; now rewrite Hd).
  assert (PrimFloat.div
            (float64_of_int64 (task_UnixNano env (task_clock_reads s)))
            1e9%float = stamp env n) as Hstamp
    by (unfold stamp; now rewrite Hc).
  unfold taskRound. cbn [task_clock_reads task_draws ticks_awaited slept
    totalCount failureCount lastRun lastSuccess].
  rewrite Hdraw, Hstamp, seq_snoc, !List.filter_app, !length_app.
  cbn [List.filter]. rewrite Hc, Hd, Ht, Hs, Htot, Hfail, Hsucc.
  split; [reflexivity|]. split; [lia|]. split; [reflexivity|].
  split; [cbn; lia|]. split; [reflexivity|].
  destruct (succeeded env n); cbn [negb length].
  - split; [lia|]. split; [reflexivity|]. now rewrite last_snoc.
  - split; [lia|]. split; [reflexivity|]. now rewrite app_nil_r.
Qed.

(** X17: the task registers exactly its four metric names, and runs
    exactly when none of them is taken: on a registry that holds one of
    them [MustRegister] panics before any round. *)
Theorem task_registers_its_four_names env reg rounds :
  (Forall (fun name => name ∉ reg) task_names ->
   periodicBackgroundTask env reg rounds =
     Returned (list_to_set task_names ∪ reg,
               taskLoop env rounds fresh_metrics)) /\
  (Exists (fun name => name ∈ reg) task_names ->
   exists reason, periodicBackgroundTask env reg rounds = Panicked reason).
Proof.
  unfold periodicBackgroundTask.
  assert (forall names (r : gset string),
            NoDup names ->
            (Forall (fun name => name ∉ r) names ->
             registerAll names r = Returned (list_to_set names ∪ r)) /\
            (Exists (fun name => name ∈ r) names ->
             exists reason, registerAll names r = Panicked reason)) as Hreg.
  { induction names as [|name names IH]; intros r Hnd.
    - split.
      + intros _. simpl. f_equal. now rewrite (left_id_L ∅ (∪)).
      + intros Hex. inversion Hex.
    - apply NoDup_cons in Hnd as [Hnotin Hnd].
      simpl. unfold MustRegister. split.
      + intros Hall. apply Forall_cons in Hall as [Hname Hall].
        rewrite bool_decide_eq_false_2 by exact Hname.
        destruct (IH ({[name]} ∪ r) Hnd) as [Hok _].
        rewrite Hok.
        * f_equal. simpl.
          rewrite (comm_L (∪) {[name]} (list_to_set names)).
          now rewrite <- (assoc_L (∪)).
        * rewrite Forall_forall in *. intros x Hx.
          rewrite elem_of_union, elem_of_singleton.
          intros [-> | Hr]; [contradiction | now apply (Hall x)].
      + intros Hex. destruct (decide (name ∈ r)) as [Hin | Hnin].
        * rewrite bool_decide_eq_true_2 by exact Hin. eauto.
        * rewrite bool_decide_eq_false_2 by exact Hnin.
          apply Exists_cons in Hex as [Hin | Hex]; [contradiction|].
          destruct (IH ({[name]} ∪ r) Hnd) as [_ Hbad].
          apply Hbad. eapply Exists_impl; [exact Hex|].
          intros x Hx. apply elem_of_union. now right. }
  assert (NoDup task_names) as Hnd.
  { apply (bool_decide_unpack _). vm_compute. exact I. }
  destruct (Hreg task_names reg Hnd) as [Hok Hbad]. split.
  - intros Hall. now rewrite (Hok Hall).
  - intros Hex. destruct (Hbad Hex) as (reason & ->). eauto.
Qed.

Lemma task_registers_its_four_names_witness :
  periodicBackgroundTask task_env ∅ 3 =
    Returned (list_to_set task_names ∪ ∅, taskLoop task_env 3 fresh_metrics).
Proof.
  apply (proj1 (task_registers_its_four_names task_env ∅ 3)).
  repeat constructor; apply not_elem_of_empty.
Defined.

(** X18: after [n] rounds the run counter is [n], the failure counter is
    the number of rounds whose draw was not above 0.3, and runs are the
    failures plus the successes; the task has read the clock once and
    drawn twice per round. *)
Theorem task_counts_runs_and_failures env reg n reg' s :
  periodicBackgroundTask env reg n = Returned (reg', s) ->
  totalCount s = n /\
  failureCount s =
    length (List.filter (fun k => negb (succeeded env k)) (seq 0 n)) /\
  (failureCount s + length (List.filter (succeeded env) (seq 0 n)) = n)%nat /\
  task_clock_reads s = n /\ task_draws s = (2 * n)%nat.
Proof.
  unfold periodicBackgroundTask.
  destruct (registerAll task_names reg); try discriminate.
  intros [= _ <-].
  destruct (taskLoop_fresh env n) as (Hc & Hd & _ & _ & Htot & Hfail & _).
  repeat (split; [assumption|]). split; [|split; assumption].
  rewrite Hfail.
  transitivity (length (seq 0 n)); [|apply length_seq].
  clear. induction (seq 0 n) as [|k ks IH]; [reflexivity|].
  cbn [List.filter]. destruct (succeeded env k); cbn [negb length]; lia.
Qed.

Lemma task_counts_runs_and_failures_witness :
  totalCount (taskLoop task_env 5 fresh_metrics) = 5%nat /\
  failureCount (taskLoop task_env 5 fresh_metrics) = 2%nat /\
  (failureCount (taskLoop task_env 5 fresh_metrics) + 3 = 5)%nat /\
  task_clock_reads (taskLoop task_env 5 fresh_metrics) = 5%nat /\
  task_draws (taskLoop task_env 5 fresh_metrics) = 10%nat.
Proof.
  exact (task_counts_runs_and_failures task_env ∅ 5 _ _ eq_refl).
Defined.

(** X19: after every round the last-run gauge holds that round's stamp,
    and the last-success gauge holds the stamp of the latest round that
    succeeded (0 when none has); so after a round that succeeded the two
    gauges are equal, as the comment in the source asks. *)
Theorem last_success_is_latest_successful_stamp env reg n reg' s :
  periodicBackgroundTask env reg (S n) = Returned (reg', s) ->
  lastRun s = stamp env n /\
  lastSuccess s =
    from_option (stamp env) 0%float
      (last (List.filter (succeeded env) (seq 0 (S n)))) /\
  (succeeded env n = true -> lastSuccess s = lastRun s) /\
  (succeeded env n = false ->
   lastSuccess s = lastSuccess (taskLoop env n fresh_metrics)).
Proof.
  unfold periodicBackgroundTask.
  destruct (registerAll task_names reg); try discriminate.
  intros [= _ <-].
  destruct (taskLoop_fresh env (S n)) as (_ & _ & _ & _ & _ & _ & Hrun & Hs).
  destruct (taskLoop_fresh env n) as (_ & _ & _ & _ & _ & _ & _ & Hs').
  cbv zeta in *. split; [exact Hrun|]. split; [exact Hs|].
  change (taskLoop env n (taskRound env fresh_metrics))
    with (taskLoop env (S n) fresh_metrics).
  rewrite Hs, Hs', Hrun, seq_snoc, List.filter_app. cbn [List.filter].
  destruct (succeeded env n); split; intros [=].
  - now rewrite last_snoc.
  - now rewrite app_nil_r.
Qed.

Lemma last_success_is_latest_successful_stamp_witness :
  lastRun (taskLoop task_env 4 fresh_metrics) = stamp task_env 3 /\
  lastSuccess (taskLoop task_env 4 fresh_metrics) = stamp task_env 2 /\
  (succeeded task_env 3 = true ->
   lastSuccess (taskLoop task_env 4 fresh_metrics) =
     lastRun (taskLoop task_env 4 fresh_metrics)) /\
  (succeeded task_env 3 = false ->
   lastSuccess (taskLoop task_env 4 fresh_metrics) =
     lastSuccess (taskLoop task_env 3 fresh_metrics)).
Proof.
  exact (last_success_is_latest_successful_stamp task_env ∅ 3 _ _ eq_refl).
Defined.
